(** * Connect-Component: the notification-and-memoisation core of [src/index.js]

    A shallow embedding of the [Connect] component class, of its stateful
    selector ([makeSelectorStateful]), of the factory lookup ([match]) and of
    the [connect] wrapper, followed by the properties the specification
    states about them.

    JavaScript objects that the program shares by reference are modelled by
    references ([loc]) into explicit stores; values are compared the way the
    source compares them ([===], truthiness). *)

From Stdlib Require Import ZArith.
From stdpp Require Import base decidable option list strings gmap.

Local Open Scope string_scope.

(** ** JavaScript values *)

Module JS.

Definition loc := nat.

(** A function object, with the two static properties [connect] reads. *)
Record fn := Fn {
  fn_id : loc;
  fn_displayName : option string;
  fn_name : string
}.

(** The values that flow through the program. Numbers are the integral
    ones and [NaN]; [VObj r] is a reference to an object, equal to another
    reference exactly when it is the same object; [VError msg] is an
    [Error] object carrying [msg]. *)
Inductive value :=
| VUndefined
| VNull
| VBool (b : bool)
| VNum (n : Z)
| VNaN
| VStr (s : string)
| VObj (r : loc)
| VFun (f : fn)
| VError (msg : string).

#[global] Instance fn_eq_dec : EqDecision fn.
Proof. solve_decision. Defined.

#[global] Instance value_eq_dec : EqDecision value.
Proof. solve_decision. Defined.

(** [Boolean(v)], the test behind [if (v)], [!v] and [a || b]. *)
Definition truthy (v : value) : bool :=
  match v with
  | VUndefined | VNull | VNaN => false
  | VBool b => b
  | VNum n => negb (n =? 0)%Z
  | VStr s => negb (bool_decide (s = EmptyString))
  | VObj _ | VFun _ | VError _ => true
  end.

(** [a === b]. *)
Definition strict_equal (a b : value) : bool :=
  match a, b with
  | VNaN, _ | _, VNaN => false
  | _, _ => bool_decide (a = b)
  end.

(** [a || b]. *)
Definition or_else (a b : value) : value := if truthy a then a else b.

(** [typeof v]. *)
Definition typeof (v : value) : string :=
  match v with
  | VUndefined => "undefined"
  | VNull | VObj _ | VError _ => "object"
  | VBool _ => "boolean"
  | VNum _ | VNaN => "number"
  | VStr _ => "string"
  | VFun _ => "function"
  end.

(** A JavaScript object used as a record of named properties. *)
Abbreviation object := (gmap string value).

(** How a statement or call completes: normally with a value, or by
    throwing one. *)
Inductive completion (A : Type) :=
| Normal (a : A)
| Throw (e : value).
Arguments Normal {A} a.
Arguments Throw {A} e.

(** [try { block } catch (err) { handler }]. *)
Definition try_catch {A} (block : completion A) (handler : value → completion A)
  : completion A :=
  match block with
  | Normal a => Normal a
  | Throw err => handler err
  end.

(** [invariant(condition, message)] of the [invariant] package. *)
Definition invariant (condition : bool) (message : string) : completion unit :=
  if condition then Normal tt else Throw (VError message).

End JS.
Import JS.

(** ** The stateful selector ([makeSelectorStateful], lines 60-79) *)

Module Selector.

(** What the two closed-over collaborators do at the moment of one call:
    [store.getState()] and [sourceSelector(state, props)]. The composed
    source selector memoises and the store changes between calls, so each
    call is given its own [env]. *)
Record env := Env {
  getState : completion value;
  sourceSelector : value → object → completion value
}.

(** [sourceSelector(store.getState(), props)]: the argument is evaluated
    first. *)
Definition derive (e : env) (props : object) : completion value :=
  match getState e with
  | Normal state => sourceSelector e state props
  | Throw err => Throw err
  end.

(** The function held by the [run] property. *)
Inductive run_fn := runComponentSelector | noop.

(** The [selector] object. Only [run] is present when the object is
    created; the other three properties read as [undefined] until they are
    first assigned. *)
Record selector := Sel {
  run : run_fn;
  props : value;
  error : value;
  shouldComponentUpdate : value
}.

Definition makeSelectorStateful : selector :=
  {| run := runComponentSelector; props := VUndefined;
     error := VUndefined; shouldComponentUpdate := VUndefined |}.

(** The body of [run]: the [try] block, whose throw the [catch] block
    turns into an assignment. *)
Definition runComponentSelector_body (e : env) (p : object) (s : selector)
  : completion selector :=
  try_catch
    (match derive e p with
     | Normal nextProps =>
         Normal
           (if negb (strict_equal nextProps (props s)) || truthy (error s) then
              {| run := run s; props := nextProps; error := VNull;
                 shouldComponentUpdate := VBool true |}
            else s)
     | Throw err => Throw err
     end)
    (fun err =>
       Normal {| run := run s; props := props s; error := err;
                 shouldComponentUpdate := VBool true |}).

(** [selector.run(props)]: the selector object it leaves, or what it
    throws. *)
Definition call_run (e : env) (p : object) (s : selector) : completion selector :=
  match run s with
  | runComponentSelector => runComponentSelector_body e p s
  | noop => Normal s
  end.

End Selector.

(** ** Effects a Controller has on its collaborators *)

Inductive effect :=
| EUpstreamSubscribe (r : loc) (upstream : value)
    (* node [r] registered its listener with [upstream] *)
| EUpstreamUnsubscribe (r : loc)
    (* node [r] invoked its unsubscribe handle *)
| ENotifyNestedSubs (r : loc)
    (* [notifyNestedSubs()] was called on node [r] *)
| ESetState
    (* [this.setState(dummyState)]: a visual update is requested *)
| EForceUpdate.
    (* [this.forceUpdate()] *)

#[global] Instance effect_eq_dec : EqDecision effect.
Proof. solve_decision. Defined.

Definition is_notify (x : effect) : bool :=
  match x with ENotifyNestedSubs _ => true | _ => false end.

(** ** Subscription nodes *)

Module Subscription.

(** Modelled from the spec: [./utils/Subscription] is imported by
    [src/index.js] but is not among the sources. Sections 3 and 4.1 give a
    node a store, an optional parent node and an optional unsubscribe
    handle; [trySubscribe] and [tryUnsubscribe] are idempotent,
    [isSubscribed] tells whether the handle is held, and
    [notifyNestedSubs] fans out to the registered children. The model
    keeps the node's own fields and records what the node does to its
    upstream source and to its children as effects. *)
Record node := Node {
  store : value;
  parentSub : value;
  unsubscribe : bool
}.

(** Modelled from the spec: the upstream source of a node is its parent
    node when it has one, the store otherwise (section 3). *)
Definition upstream (n : node) : value := or_else (parentSub n) (store n).

(** Modelled from the spec: [trySubscribe()], section 4.1. If the node is not
    subscribed it registers with its upstream source and holds the handle;
    otherwise it does nothing. *)
Definition trySubscribe (r : loc) (n : node) : node * list effect :=
  if unsubscribe n then (n, [])
  else ({| store := store n; parentSub := parentSub n; unsubscribe := true |},
        [EUpstreamSubscribe r (upstream n)]).

(** Modelled from the spec: [tryUnsubscribe()], section 4.1. If the node is
    subscribed it invokes the handle and clears it; otherwise it does
    nothing. *)
Definition tryUnsubscribe (r : loc) (n : node) : node * list effect :=
  if unsubscribe n then
    ({| store := store n; parentSub := parentSub n; unsubscribe := false |},
     [EUpstreamUnsubscribe r])
  else (n, []).

(** Modelled from the spec: [isSubscribed()], section 4.1. *)
Definition isSubscribed (n : node) : bool := unsubscribe n.

(** Modelled from the spec: [notifyNestedSubs()], section 4.1. The call is
    recorded; the callbacks it invokes belong to other Controllers. *)
Definition notifyNestedSubs (r : loc) : list effect := [ENotifyNestedSubs r].

End Subscription.

(** ** Factory lookup ([match], lines 40-51) and connection options *)

Definition storeKey : string := "store".
Definition subscriptionKey : string := storeKey +:+ "Subscription".
Definition methodName : string := "connect".

(** Property read [o[k]]: an absent property reads as [undefined]. *)
Definition get (o : object) (k : string) : value := default VUndefined (o !! k).

(** The [options] object at the keys this file reads, the remaining
    recognised keys ([pure] and the four equality functions) in [others]. *)
Record options := Options {
  wrappedComponentName : string;
  getDisplayName : string → string;
  withRef : value;
  others : object
}.

(** What [selectorFactoryOptions] holds besides the three init functions. *)
Record factoryOptions := FactoryOptions {
  fo_options : options;
  fo_methodName : string;
  fo_shouldHandleStateChanges : bool;
  fo_storeKey : string;
  fo_displayName : string
}.

(** An init function [(dispatch, options) => stage]. *)
Definition initFn := value → factoryOptions → completion value.

(** A factory answers with an init function, or with a falsy value when the
    argument is not of its kind. *)
Definition factory := value → option initFn.

Definition invalid_value_message (arg : value) (name : string) (o : factoryOptions) : string :=
  "Invalid value of type " +:+ typeof arg +:+ " for " +:+ name +:+
  " argument when connecting component " +:+
  wrappedComponentName (fo_options o) +:+ ".".

(** The loop [for (i = n - 1; i >= 0; i--)] of [match], entered with [n]. *)
Fixpoint match_loop (arg : value) (factories : list factory) (n : nat) : option initFn :=
  match n with
  | O => None
  | S i =>
      match factories !! i with
      | Some f =>
          match f arg with
          | Some result => Some result
          | None => match_loop arg factories i
          end
      | None => None
      end
  end.

Definition match_ (arg : value) (factories : list factory) (name : string) : initFn :=
  match match_loop arg factories (length factories) with
  | Some result => result
  | None => fun dispatch o => Throw (VError (invalid_value_message arg name o))
  end.

(** Modelled from the spec: [./connect/selectorFactory] is imported by
    [src/index.js] but is not among the sources. Section 4.3 has the three
    derivation stages resolved at connection setup, a stage that cannot be
    resolved being a configuration error surfaced there. The model calls the
    three init functions with the dispatch function and the options, in
    stage order, and hands back the resolved stages; what the composed
    selector computes at a later call is read from that call's
    [Selector.env]. *)
Definition selectorFactory (dispatch : value)
    (initMapStateToProps initMapDispatchToProps initMergeProps : initFn)
    (o : factoryOptions) : completion (value * value * value) :=
  match initMapStateToProps dispatch o with
  | Throw e => Throw e
  | Normal mapState =>
      match initMapDispatchToProps dispatch o with
      | Throw e => Throw e
      | Normal mapDispatch =>
          match initMergeProps dispatch o with
          | Throw e => Throw e
          | Normal merge => Normal (mapState, mapDispatch, merge)
          end
      end
  end.

(** ** The [connect] wrapper (lines 311-354) *)

(** The object [opts] closed over by a [ConnectWrap] class. *)
Record opts := Opts {
  mapStateToProps : value;
  mapDispatchToProps : value;
  mergeProps : value;
  opt_options : options
}.

(** The [options] argument of [connect], at its recognised keys: a key that
    is present overrides the default. *)
Record userOptions := UserOptions {
  u_getDisplayName : option (string → string);
  u_withRef : option value;
  u_others : object
}.

Definition strictEqual : value := VFun (Fn 1 None "strictEqual").
Definition shallowEqual : value := VFun (Fn 2 None "shallowEqual").

Definition defaultOthers : object :=
  <["pure" := VBool true]>
  (<["areStatesEqual" := strictEqual]>
  (<["areOwnPropsEqual" := shallowEqual]>
  (<["areStatePropsEqual" := shallowEqual]>
  (<["areMergedPropsEqual" := shallowEqual]> ∅)))).

Definition default_getDisplayName (name : string) : string :=
  "Connect(" +:+ name +:+ ")".

(** [{ wrappedComponentName, ...defaultOpts, ...options }]. *)
Definition merged_options (name : string) (u : userOptions) : options :=
  {| wrappedComponentName := name;
     getDisplayName := default default_getDisplayName (u_getDisplayName u);
     withRef := default (VBool false) (u_withRef u);
     others := u_others u ∪ defaultOthers |}.

(** The class [ConnectWrap] that [connect(...)(WrappedComponent)] returns;
    [hoistStatics] copies statics of the wrapped component onto it, none of
    which is read here. *)
Record class := Class {
  cls_opts : opts;
  WrappedComponent : fn;
  displayName : string
}.

(** [WrappedComponent.displayName || WrappedComponent.name || 'Component']. *)
Definition wrappedComponentName_of (f : fn) : string :=
  match fn_displayName f with
  | Some d =>
      if truthy (VStr d) then d
      else if truthy (VStr (fn_name f)) then fn_name f else "Component"
  | None => if truthy (VStr (fn_name f)) then fn_name f else "Component"
  end.

Definition not_a_component_message (rendering : string) : string :=
  "You must pass a component to the function returned by " +:+
  "connect. Instead received " +:+ rendering.

Section connect.

(** [JSON.stringify(v)] as the template literal prints it. *)
Variable stringify : value → string.

Definition connect (mapStateToProps mapDispatchToProps mergeProps : value)
    (u : userOptions) (W : value) : completion class :=
  match invariant (bool_decide (typeof W = "function"))
                  (not_a_component_message (stringify W)) with
  | Throw e => Throw e
  | Normal _ =>
      match W with
      | VFun f =>
          let name := wrappedComponentName_of f in
          let o := {| mapStateToProps := mapStateToProps;
                      mapDispatchToProps := mapDispatchToProps;
                      mergeProps := mergeProps;
                      opt_options := merged_options name u |} in
          Normal {| cls_opts := o; WrappedComponent := f;
                    displayName := getDisplayName (opt_options o) name |}
      | _ => Throw (VError "TypeError")
      end
  end.

End connect.

(** ** The [Connect] class (lines 81-294) *)

Module Connect.

(** The function held by [this.notifyNestedSubs]: nothing before
    [initSubscription] assigns it, then the subscription's method bound to
    the subscription, then [noop] after unmount. *)
Inductive notify_fn :=
| NotifyUnassigned
| NotifyBound (r : loc)
| NotifyNoop.

(** The function held by [this.componentDidUpdate], when there is one. *)
Inductive hook := notifyNestedSubsOnComponentDidUpdate_fn.

Record instance := Instance {
  cls : class;
  props : object;
  context : object;
  store : value;
  propsMode : bool;
  staticOpts : opts;
  selector : Selector.selector;
  subscription : value;
  notifyNestedSubs : notify_fn;
  componentDidUpdate : option hook;
  wrappedInstance : value
}.

(** The instance as [super(props, context)] leaves it. [staticOpts] is the
    object [initialize] assigns; it is kept here from the start. *)
Definition fresh (c : class) (p ctx : object) : instance :=
  {| cls := c; props := p; context := ctx; store := VUndefined;
     propsMode := false; staticOpts := cls_opts c;
     selector := Selector.makeSelectorStateful;
     subscription := VUndefined; notifyNestedSubs := NotifyUnassigned;
     componentDidUpdate := None; wrappedInstance := VUndefined |}.

Definition set_store (v : value) (i : instance) : instance :=
  {| cls := cls i; props := props i; context := context i; store := v;
     propsMode := propsMode i; staticOpts := staticOpts i;
     selector := selector i; subscription := subscription i;
     notifyNestedSubs := notifyNestedSubs i;
     componentDidUpdate := componentDidUpdate i;
     wrappedInstance := wrappedInstance i |}.

Definition set_propsMode (b : bool) (i : instance) : instance :=
  {| cls := cls i; props := props i; context := context i; store := store i;
     propsMode := b; staticOpts := staticOpts i;
     selector := selector i; subscription := subscription i;
     notifyNestedSubs := notifyNestedSubs i;
     componentDidUpdate := componentDidUpdate i;
     wrappedInstance := wrappedInstance i |}.

Definition set_staticOpts (o : opts) (i : instance) : instance :=
  {| cls := cls i; props := props i; context := context i; store := store i;
     propsMode := propsMode i; staticOpts := o;
     selector := selector i; subscription := subscription i;
     notifyNestedSubs := notifyNestedSubs i;
     componentDidUpdate := componentDidUpdate i;
     wrappedInstance := wrappedInstance i |}.

Definition set_selector (s : Selector.selector) (i : instance) : instance :=
  {| cls := cls i; props := props i; context := context i; store := store i;
     propsMode := propsMode i; staticOpts := staticOpts i;
     selector := s; subscription := subscription i;
     notifyNestedSubs := notifyNestedSubs i;
     componentDidUpdate := componentDidUpdate i;
     wrappedInstance := wrappedInstance i |}.

Definition set_subscription (v : value) (i : instance) : instance :=
  {| cls := cls i; props := props i; context := context i; store := store i;
     propsMode := propsMode i; staticOpts := staticOpts i;
     selector := selector i; subscription := v;
     notifyNestedSubs := notifyNestedSubs i;
     componentDidUpdate := componentDidUpdate i;
     wrappedInstance := wrappedInstance i |}.

Definition set_notifyNestedSubs (f : notify_fn) (i : instance) : instance :=
  {| cls := cls i; props := props i; context := context i; store := store i;
     propsMode := propsMode i; staticOpts := staticOpts i;
     selector := selector i; subscription := subscription i;
     notifyNestedSubs := f;
     componentDidUpdate := componentDidUpdate i;
     wrappedInstance := wrappedInstance i |}.

Definition set_componentDidUpdate (h : option hook) (i : instance) : instance :=
  {| cls := cls i; props := props i; context := context i; store := store i;
     propsMode := propsMode i; staticOpts := staticOpts i;
     selector := selector i; subscription := subscription i;
     notifyNestedSubs := notifyNestedSubs i;
     componentDidUpdate := h;
     wrappedInstance := wrappedInstance i |}.

Definition set_wrappedInstance (v : value) (i : instance) : instance :=
  {| cls := cls i; props := props i; context := context i; store := store i;
     propsMode := propsMode i; staticOpts := staticOpts i;
     selector := selector i; subscription := subscription i;
     notifyNestedSubs := notifyNestedSubs i;
     componentDidUpdate := componentDidUpdate i;
     wrappedInstance := v |}.

(** The assignment [this.props = nextProps] the view runtime makes between
    [componentWillReceiveProps] and the next render. *)
Definition set_props (p : object) (i : instance) : instance :=
  {| cls := cls i; props := p; context := context i; store := store i;
     propsMode := propsMode i; staticOpts := staticOpts i;
     selector := selector i; subscription := subscription i;
     notifyNestedSubs := notifyNestedSubs i;
     componentDidUpdate := componentDidUpdate i;
     wrappedInstance := wrappedInstance i |}.

Definition set_run (f : Selector.run_fn) (s : Selector.selector) : Selector.selector :=
  {| Selector.run := f; Selector.props := Selector.props s;
     Selector.error := Selector.error s;
     Selector.shouldComponentUpdate := Selector.shouldComponentUpdate s |}.

Definition set_shouldComponentUpdate (v : value) (s : Selector.selector)
  : Selector.selector :=
  {| Selector.run := Selector.run s; Selector.props := Selector.props s;
     Selector.error := Selector.error s;
     Selector.shouldComponentUpdate := v |}.

(** *** The state a method runs in

    The instance, the store of Subscription nodes (a node's reference is
    its index) and the effects so far, oldest first. *)
Record state := State {
  this : instance;
  subs : list Subscription.node;
  log : list effect
}.

Definition M (A : Type) : Type := state → completion A * state.

Definition ret {A} (a : A) : M A := fun st => (Normal a, st).

Definition bind {A B} (m : M A) (k : A → M B) : M B :=
  fun st =>
    match m st with
    | (Normal a, st') => k a st'
    | (Throw e, st') => (Throw e, st')
    end.

Definition throw {A} (e : value) : M A := fun st => (Throw e, st).

Definition lift {A} (c : completion A) : M A := fun st => (c, st).

Definition read {A} (f : instance → A) : M A := fun st => (Normal (f (this st)), st).

Definition assign (f : instance → instance) : M unit :=
  fun st => (Normal tt, {| this := f (this st); subs := subs st; log := log st |}).

Definition emit (es : list effect) : M unit :=
  fun st => (Normal tt, {| this := this st; subs := subs st; log := log st ++ es |}).

Definition when (b : bool) (m : M unit) : M unit := if b then m else ret tt.

Declare Scope js_scope.
Delimit Scope js_scope with js.
Notation "'let!' x := m 'in' k" := (bind m (fun x => k))
  (at level 10, x name, m at level 100, k at level 200) : js_scope.
Notation "m ;; k" := (bind m (fun _ => k))
  (at level 100, k at level 200, right associativity) : js_scope.
Local Open Scope js_scope.

(** A method call [v.method()] on what should be a Subscription: a
    [TypeError] when [v] is not one. *)
Definition on_node (v : value)
    (method : loc → Subscription.node → Subscription.node * list effect) : M unit :=
  fun st =>
    match v with
    | VObj r =>
        match subs st !! r with
        | Some n =>
            let '(n', es) := method r n in
            (Normal tt, {| this := this st; subs := <[r := n']> (subs st);
                           log := log st ++ es |})
        | None => (Throw (VError "TypeError"), st)
        end
    | _ => (Throw (VError "TypeError"), st)
    end.

(** [new Subscription(store, parentSub, listener)]. *)
Definition new_Subscription (store parentSub : value) : M loc :=
  fun st =>
    (Normal (length (subs st)),
     {| this := this st;
        subs := subs st ++ [Subscription.Node store parentSub false];
        log := log st |}).

(** *** Methods *)

(** [this.staticOpts || this.props]: [staticOpts] is an object, which is
    truthy. *)
Definition getOptions (i : instance) : opts := staticOpts i.

Definition shouldHandleStateChanges (i : instance) : bool :=
  truthy (mapStateToProps (getOptions i)).

(** The rest pattern of [getRestProps]: every property but the five named
    ones. *)
Definition getRestProps (p : object) : object :=
  delete "children"
    (delete "options"
       (delete "mergeProps"
          (delete "mapDispatchToProps" (delete "mapStateToProps" p)))).

Definition getChildContext (i : instance) : object :=
  let subscription := if propsMode i then VNull else subscription i in
  {[ subscriptionKey := or_else subscription (get (context i) subscriptionKey) ]}.

(** [this.selector.run(p)]. *)
Definition run_selector (e : Selector.env) (p : object) : M unit :=
  let! s := read selector in
  let! s' := lift (Selector.call_run e p s) in
  assign (set_selector s').

Definition forceUpdate : M unit := emit [EForceUpdate].
Definition setState : M unit := emit [ESetState].

Definition componentDidMount (e : Selector.env) : M unit :=
  let! handles := read shouldHandleStateChanges in
  if negb handles then ret tt
  else
    let! subscription := read subscription in
    on_node subscription Subscription.trySubscribe ;;
    let! p := read props in
    run_selector e (getRestProps p) ;;
    let! s := read selector in
    when (truthy (Selector.shouldComponentUpdate s)) forceUpdate.

Definition componentWillReceiveProps (e : Selector.env) (nextProps : object) : M unit :=
  run_selector e (getRestProps nextProps).

Definition shouldComponentUpdate : M value :=
  read (fun i => Selector.shouldComponentUpdate (selector i)).

Definition componentWillUnmount : M unit :=
  let! subscription := read subscription in
  when (truthy subscription) (on_node subscription Subscription.tryUnsubscribe) ;;
  assign (set_subscription VNull) ;;
  assign (set_notifyNestedSubs NotifyNoop) ;;
  assign (set_store VNull) ;;
  assign (fun i => set_selector (set_run Selector.noop (selector i)) i) ;;
  assign (fun i => set_selector (set_shouldComponentUpdate (VBool false) (selector i)) i).

Definition getWrappedInstance : M value :=
  let! withRef := read (fun i => withRef (opt_options (getOptions i))) in
  lift (invariant (truthy withRef)
          ("To access the wrapped instance, you need to specify " +:+
           "{ withRef: true } in the options argument of the " +:+
           methodName +:+ "() call.")) ;;
  read wrappedInstance.

Definition setWrappedInstance (ref : value) : M unit :=
  assign (set_wrappedInstance ref).

(** [this.notifyNestedSubs()]. *)
Definition call_notifyNestedSubs : M unit :=
  let! f := read notifyNestedSubs in
  match f with
  | NotifyBound r => emit (Subscription.notifyNestedSubs r)
  | NotifyNoop => ret tt
  | NotifyUnassigned => throw (VError "TypeError")
  end.

Definition onStateChange (e : Selector.env) : M unit :=
  let! p := read props in
  run_selector e (getRestProps p) ;;
  let! s := read selector in
  if negb (truthy (Selector.shouldComponentUpdate s)) then call_notifyNestedSubs
  else
    assign (set_componentDidUpdate (Some notifyNestedSubsOnComponentDidUpdate_fn)) ;;
    setState.

Definition notifyNestedSubsOnComponentDidUpdate : M unit :=
  assign (set_componentDidUpdate None) ;;
  call_notifyNestedSubs.

(** What the view runtime does once a visual update has committed: it
    calls [this.componentDidUpdate] when the instance has one. *)
Definition commit : M unit :=
  let! h := read componentDidUpdate in
  match h with
  | Some notifyNestedSubsOnComponentDidUpdate_fn => notifyNestedSubsOnComponentDidUpdate
  | None => ret tt
  end.

Definition isSubscribed : M bool :=
  fun st =>
    match subscription (this st) with
    | VObj r =>
        match subs st !! r with
        | Some n => (Normal (Subscription.isSubscribed n), st)
        | None => (Throw (VError "TypeError"), st)
        end
    | v => if truthy v then (Throw (VError "TypeError"), st) else (Normal false, st)
    end.

(** The bound function [this.setWrappedInstance]. *)
Definition setWrappedInstance_bound : value := VFun (Fn 0 None "bound setWrappedInstance").

(** The object [addExtraProps] returns: its argument itself, or a shallow
    copy of it with the extra properties added. *)
Inductive childProps :=
| Same (p : value)
| WithExtras (p : value) (extras : object).

Definition addExtraProps (i : instance) (p : value) : childProps :=
  let withRef := truthy (withRef (opt_options (getOptions i))) in
  let own := propsMode i && truthy (subscription i) in
  if negb withRef && negb own then Same p
  else
    let extras : object := ∅ in
    let extras := if withRef then <["ref" := setWrappedInstance_bound]> extras else extras in
    let extras := if own then <[subscriptionKey := subscription i]> extras else extras in
    WithExtras p extras.

(** [<WrappedComponent {...props} children={children} />]. *)
Record element := Element {
  el_type : fn;
  el_props : childProps;
  el_children : value
}.

Definition renderChild (i : instance) : element :=
  {| el_type := WrappedComponent (cls i);
     el_props := addExtraProps i (Selector.props (selector i));
     el_children := get (props i) "children" |}.

Definition render : M element :=
  assign (fun i => set_selector (set_shouldComponentUpdate (VBool false) (selector i)) i) ;;
  let! s := read selector in
  if truthy (Selector.error s) then throw (Selector.error s)
  else read renderChild.

(** *** Construction (lines 82-103, 164-202, 215-239) *)

(** The three factory lists the file imports and the [dispatch] property
    of a store; their modules are outside this file. *)
Record collaborators := Collaborators {
  mapStateToPropsFactories : list factory;
  mapDispatchToPropsFactories : list factory;
  mergePropsFactories : list factory;
  dispatch_of : value → value
}.

Definition dquote : string := String (Ascii.ascii_of_nat 34) EmptyString.

Definition missing_store_message (displayName : string) : string :=
  "Could not find " +:+ dquote +:+ storeKey +:+ dquote +:+
  " in either the context or props of " +:+
  dquote +:+ displayName +:+ dquote +:+
  ". Either wrap the root component in a <Provider>, " +:+
  "or explicitly pass " +:+ dquote +:+ storeKey +:+ dquote +:+
  " as a prop to " +:+ dquote +:+ displayName +:+ dquote +:+ ".".

Definition initialize : M unit :=
  assign (fun i => set_staticOpts (cls_opts (cls i)) i).

Definition initSelector (K : collaborators) (e : Selector.env) : M unit :=
  let! o := read getOptions in
  let initMapStateToProps :=
    match_ (mapStateToProps o) (mapStateToPropsFactories K) "mapStateToProps" in
  let initMapDispatchToProps :=
    match_ (mapDispatchToProps o) (mapDispatchToPropsFactories K) "mapDispatchToProps" in
  let initMergeProps := match_ (mergeProps o) (mergePropsFactories K) "mergeProps" in
  let! handles := read shouldHandleStateChanges in
  let! name := read (fun i => displayName (cls i)) in
  let selectorFactoryOptions :=
    {| fo_options := opt_options o; fo_methodName := methodName;
       fo_shouldHandleStateChanges := handles; fo_storeKey := storeKey;
       fo_displayName := name |} in
  let! store := read store in
  let! sourceSelector :=
    lift (selectorFactory (dispatch_of K store) initMapStateToProps
            initMapDispatchToProps initMergeProps selectorFactoryOptions) in
  assign (set_selector Selector.makeSelectorStateful) ;;
  let! p := read props in
  run_selector e (getRestProps p).

Definition initSubscription : M unit :=
  let! handles := read shouldHandleStateChanges in
  if negb handles then ret tt
  else
    let! i := read (fun i => i) in
    let parentSub := get (if propsMode i then props i else context i) subscriptionKey in
    let! r := new_Subscription (store i) parentSub in
    assign (set_subscription (VObj r)) ;;
    assign (set_notifyNestedSubs (NotifyBound r)).

Definition constructor (K : collaborators) (e : Selector.env) : M unit :=
  let! i := read (fun i => i) in
  assign (set_store (or_else (get (props i) storeKey) (get (context i) storeKey))) ;;
  assign (set_propsMode (truthy (get (props i) storeKey))) ;;
  initialize ;;
  let! store := read store in
  let! name := read (fun i => displayName (cls i)) in
  lift (invariant (truthy store) (missing_store_message name)) ;;
  initSelector K e ;;
  initSubscription.

(** [new ConnectWrap(props, context)] over the nodes [nodes]. *)
Definition new (K : collaborators) (e : Selector.env) (c : class)
    (p ctx : object) (nodes : list Subscription.node) : completion unit * state :=
  constructor K e {| this := fresh c p ctx; subs := nodes; log := [] |}.

(** *** The calls an instance receives after construction *)

Inductive call :=
| ComponentDidMount (e : Selector.env)
| ComponentWillReceiveProps (e : Selector.env) (nextProps : object)
| ShouldComponentUpdate
| Render
| Commit
| ComponentWillUnmount
| OnStateChange (e : Selector.env)
| GetChildContext
| GetWrappedInstance
| SetWrappedInstance (ref : value)
| IsSubscribed.

Definition forget {A} (m : M A) : M unit := fun st => (Normal tt, snd (m st)).

(** One call, its completion value forgotten; the state it leaves behind
    is kept also when the call throws. *)
Definition perform (c : call) : M unit :=
  match c with
  | ComponentDidMount e => forget (componentDidMount e)
  | ComponentWillReceiveProps e nextProps =>
      forget (componentWillReceiveProps e nextProps) ;; assign (set_props nextProps)
  | ShouldComponentUpdate => forget shouldComponentUpdate
  | Render => forget render
  | Commit => forget commit
  | ComponentWillUnmount => forget componentWillUnmount
  | OnStateChange e => forget (onStateChange e)
  | GetChildContext => forget (read getChildContext)
  | GetWrappedInstance => forget getWrappedInstance
  | SetWrappedInstance ref => forget (setWrappedInstance ref)
  | IsSubscribed => forget isSubscribed
  end.

Definition after (c : call) (st : state) : state := snd (perform c st).

(** A sequence of calls, first call first. *)
Definition after_all (cs : list call) (st : state) : state :=
  fold_left (fun st c => after c st) cs st.

Definition is_onStateChange (c : call) : bool :=
  match c with OnStateChange _ => true | _ => false end.

End Connect.

(** ** Concrete inputs used to exercise the statements below *)

Module Example.

(** A factory in the style of the absent factory modules: it keeps a
    function argument. *)
Definition whenFunction : factory :=
  fun arg => match arg with VFun _ => Some (fun _ _ => Normal arg) | _ => None end.

(** A factory that accepts a missing (falsy) argument. *)
Definition whenMissing : factory :=
  fun arg => if truthy arg then None else Some (fun _ _ => Normal VUndefined).

Definition K : Connect.collaborators :=
  {| Connect.mapStateToPropsFactories := [whenFunction; whenMissing];
     Connect.mapDispatchToPropsFactories := [whenFunction; whenMissing];
     Connect.mergePropsFactories := [whenFunction; whenMissing];
     Connect.dispatch_of := fun _ => VFun (Fn 9 None "dispatch") |}.

(** An environment in which the derivation returns the object [r]. *)
Definition returning (r : loc) : Selector.env :=
  {| Selector.getState := Normal (VObj 100);
     Selector.sourceSelector := fun _ _ => Normal (VObj r) |}.

(** An environment in which the derivation throws [err]. *)
Definition throwing (err : value) : Selector.env :=
  {| Selector.getState := Normal (VObj 100);
     Selector.sourceSelector := fun _ _ => Throw err |}.

Definition stringify (v : value) : string :=
  match v with
  | VNum 42 => "42"
  | VNull => "null"
  | VStr s => Connect.dquote +:+ s +:+ Connect.dquote
  | _ => "undefined"
  end.

Definition App : fn := Fn 50 None "App".
Definition mapState : value := VFun (Fn 60 None "mapState").
Definition noOptions : userOptions := UserOptions None None ∅.

Definition options_App : options := merged_options "App" noOptions.

(** The class [connect(mapState)(App)]. *)
Definition Connected : class :=
  {| cls_opts := Opts mapState VUndefined VUndefined options_App;
     WrappedComponent := App; displayName := "Connect(App)" |}.

(** The class [connect()(App)], which has no state-derivation stage. *)
Definition Detached : class :=
  {| cls_opts := Opts VUndefined VUndefined VUndefined options_App;
     WrappedComponent := App; displayName := "Connect(App)" |}.

(** The class [connect(3)(App)]: no factory matches the number [3]. *)
Definition Misconfigured : class :=
  {| cls_opts := Opts (VNum 3) VUndefined VUndefined options_App;
     WrappedComponent := App; displayName := "Connect(App)" |}.

Definition ownProps : object := {[ "a" := VNum 1 ]}.
Definition ambient : object := {[ storeKey := VObj 7 ]}.

(** [Connected] mounted under an ambient store, no enclosing node. *)
Definition mounted : Connect.state :=
  snd (Connect.new K (returning 200) Connected ownProps ambient []).

(** The same after its first render. *)
Definition rendered : Connect.state := Connect.after Connect.Render mounted.

(** [Connected] given its store as a prop, below an ambient node [0]. *)
Definition explicit : Connect.state :=
  snd (Connect.new K (returning 200) Connected
         {[ storeKey := VObj 8 ]}
         (<[subscriptionKey := VObj 0]> ambient)
         [Subscription.Node (VObj 7) VUndefined true]).

(** [Connected] under an ambient store, below an ambient node [0]. *)
Definition nested : Connect.state :=
  snd (Connect.new K (returning 200) Connected ownProps
         (<[subscriptionKey := VObj 0]> ambient)
         [Subscription.Node (VObj 7) VUndefined true]).

(** [Detached] mounted under an ambient store. *)
Definition unsubscribed : Connect.state :=
  snd (Connect.new K (returning 200) Detached ownProps ambient []).

(** A selector holding props [VObj 200] and the error [boom]. *)
Definition failed : Selector.selector :=
  {| Selector.run := Selector.runComponentSelector; Selector.props := VObj 200;
     Selector.error := VError "boom";
     Selector.shouldComponentUpdate := VBool true |}.

(** A selector at rest on props [VObj 200]. *)
Definition settled : Selector.selector :=
  {| Selector.run := Selector.runComponentSelector; Selector.props := VObj 200;
     Selector.error := VNull;
     Selector.shouldComponentUpdate := VBool false |}.

(** [mounted] after a run that threw [boom]. *)
Definition broken : Connect.state :=
  {| Connect.this := Connect.set_selector failed (Connect.this mounted);
     Connect.subs := Connect.subs mounted; Connect.log := [] |}.

End Example.

(** * Vocabulary of the statements *)

Import Connect.
Local Open Scope list_scope.

(** The selector a successful run leaves when it takes the new props. *)
Definition updated (s : Selector.selector) (nextProps : value) : Selector.selector :=
  {| Selector.run := Selector.run s; Selector.props := nextProps;
     Selector.error := VNull; Selector.shouldComponentUpdate := VBool true |}.

(** The selector a throwing run leaves. *)
Definition faulted (s : Selector.selector) (err : value) : Selector.selector :=
  {| Selector.run := Selector.run s; Selector.props := Selector.props s;
     Selector.error := err; Selector.shouldComponentUpdate := VBool true |}.

(** The state with [selector.shouldComponentUpdate] set to [false]. *)
Definition flag_reset (st : state) : state :=
  {| this := set_selector
               (set_shouldComponentUpdate (VBool false) (selector (this st)))
               (this st);
     subs := subs st; log := log st |}.

(** The calls of [notifyNestedSubs] recorded in a log. *)
Definition notifications (l : list effect) : list effect :=
  List.filter is_notify l.

(** The selector object a call [selector.run(p)] leaves. *)
Definition ran (e : Selector.env) (p : object) (s : Selector.selector)
  : Selector.selector :=
  match Selector.call_run e p s with
  | Normal s' => s'
  | Throw _ => s
  end.

(** The state right after [this.selector.run(p)]. *)
Definition with_run (e : Selector.env) (p : object) (st : state) : state :=
  {| this := set_selector (ran e p (selector (this st))) (this st);
     subs := subs st; log := log st |}.

(** [this.subscription] is [undefined], [null] or a node of the store. *)
Definition subscription_ok (st : state) : Prop :=
  match subscription (this st) with
  | VObj r => is_Some (subs st !! r)
  | v => truthy v = false
  end.

(** The entries through which a stale reference can still reach a detached
    Controller. *)
Inductive stale :=
| StaleRun (e : Selector.env) (p : object)     (* [selector.run(p)] *)
| StaleNotify                                  (* [notifyNestedSubs()] *)
| StaleStateChange (e : Selector.env).         (* the node's listener *)

Definition enter (x : stale) : M unit :=
  match x with
  | StaleRun e p => run_selector e p
  | StaleNotify => call_notifyNestedSubs
  | StaleStateChange e => onStateChange e
  end.

(** The entries one after the other, stopping at the first that throws. *)
Fixpoint enter_all (l : list stale) : M unit :=
  match l with
  | [] => ret tt
  | x :: l => bind (enter x) (fun _ => enter_all l)
  end.

(** A Controller whose selector is frozen and whose child-notify is [noop]. *)
Definition inert (st : state) : Prop :=
  Selector.run (selector (this st)) = Selector.noop
  ∧ Selector.shouldComponentUpdate (selector (this st)) = VBool false
  ∧ notifyNestedSubs (this st) = NotifyNoop.

(** [props[storeKey] || context[storeKey]]. *)
Definition store_of (p ctx : object) : value :=
  or_else (get p storeKey) (get ctx storeKey).

Definition factoryOptions_of (c : class) : factoryOptions :=
  {| fo_options := opt_options (cls_opts c); fo_methodName := methodName;
     fo_shouldHandleStateChanges := truthy (mapStateToProps (cls_opts c));
     fo_storeKey := storeKey; fo_displayName := displayName c |}.

(** The three init functions [initSelector] obtains from [match]. *)
Definition initMapStateToProps (K : collaborators) (c : class) : initFn :=
  match_ (mapStateToProps (cls_opts c)) (mapStateToPropsFactories K) "mapStateToProps".
Definition initMapDispatchToProps (K : collaborators) (c : class) : initFn :=
  match_ (mapDispatchToProps (cls_opts c)) (mapDispatchToPropsFactories K)
    "mapDispatchToProps".
Definition initMergeProps (K : collaborators) (c : class) : initFn :=
  match_ (mergeProps (cls_opts c)) (mergePropsFactories K) "mergeProps".

(** The call of [selectorFactory] that [initSelector] makes. *)
Definition resolve (K : collaborators) (c : class) (p ctx : object)
  : completion (value * value * value) :=
  selectorFactory (dispatch_of K (store_of p ctx))
    (initMapStateToProps K c) (initMapDispatchToProps K c) (initMergeProps K c)
    (factoryOptions_of c).

(** The instance once [initSelector] has returned. *)
Definition selected (e : Selector.env) (c : class) (p ctx : object) : instance :=
  set_selector
    (ran e (getRestProps p) Selector.makeSelectorStateful)
    (set_staticOpts (cls_opts c)
       (set_propsMode (truthy (get p storeKey))
          (set_store (store_of p ctx) (fresh c p ctx)))).

(** The node [initSubscription] creates. *)
Definition own_node (p ctx : object) : Subscription.node :=
  Subscription.Node (store_of p ctx)
    (get (if truthy (get p storeKey) then p else ctx) subscriptionKey) false.

(** The state a successful construction leaves. *)
Definition constructed (e : Selector.env) (c : class) (p ctx : object)
    (nodes : list Subscription.node) : state :=
  if truthy (mapStateToProps (cls_opts c)) then
    {| this := set_notifyNestedSubs (NotifyBound (length nodes))
                 (set_subscription (VObj (length nodes)) (selected e c p ctx));
       subs := nodes ++ [own_node p ctx]; log := [] |}
  else {| this := selected e c p ctx; subs := nodes; log := [] |}.

(** [needle] occurs in [hay]. *)
Definition contains (needle hay : string) : Prop :=
  ∃ pre post, hay = pre +:+ needle +:+ post.

(** No factory of the list answers for [arg]. *)
Definition unmatched (arg : value) (factories : list factory) : Prop :=
  match_loop arg factories (length factories) = None.

(** The slot of the child context. *)
Definition slot (i : instance) : value := get (getChildContext i) subscriptionKey.

(** The property names the rest pattern of [getRestProps] leaves out. *)
Definition rest_excluded : list string :=
  ["mapStateToProps"; "mapDispatchToProps"; "mergeProps"; "options"; "children"].

(** A Controller as [componentWillUnmount] leaves it: frozen, and without
    a subscription. *)
Definition detached (st : state) : Prop :=
  inert st ∧ subscription (this st) = VNull.

(** Which call is written to produce which effect. *)
Definition may_emit (c : call) (x : effect) : bool :=
  match x, c with
  | EUpstreamSubscribe _ _, ComponentDidMount _ => true
  | EForceUpdate, ComponentDidMount _ => true
  | EUpstreamUnsubscribe _, ComponentWillUnmount => true
  | ESetState, OnStateChange _ => true
  | ENotifyNestedSubs _, OnStateChange _ => true
  | ENotifyNestedSubs _, Commit => true
  | _, _ => false
  end.

(** The selectors a call can leave, read off the method the call enters;
    [componentDidMount] and [componentWillUnmount] leave the selector as it
    was when they return or throw before they reach it. *)
Definition selector_after (c : call) (i : instance) : list Selector.selector :=
  let s := selector i in
  match c with
  | ComponentDidMount e => [s; ran e (getRestProps (props i)) s]
  | ComponentWillReceiveProps e nextProps => [ran e (getRestProps nextProps) s]
  | OnStateChange e => [ran e (getRestProps (props i)) s]
  | Render => [set_shouldComponentUpdate (VBool false) s]
  | ComponentWillUnmount =>
      [s; set_shouldComponentUpdate (VBool false) (set_run Selector.noop s)]
  | _ => [s]
  end.

(** More concrete inputs. *)
Module Sample.

(** The class [connect(mapState, undefined, undefined, { withRef: true })(App)]. *)
Definition WithRef : class :=
  {| cls_opts :=
       Opts Example.mapState VUndefined VUndefined
         (merged_options "App" (UserOptions None (Some (VBool true)) ∅));
     WrappedComponent := Example.App; displayName := "Connect(App)" |}.

(** [WithRef] mounted under an ambient store. *)
Definition referring : state :=
  snd (new Example.K (Example.returning 200) WithRef Example.ownProps
         Example.ambient []).

(** [Example.mounted] rendered, attached and then unmounted. *)
Definition unmounted : state :=
  after_all [Render; ComponentDidMount (Example.returning 200); ComponentWillUnmount]
    Example.mounted.

(** A factory list whose later entry also accepts functions. *)
Definition later : factory :=
  fun arg => match arg with VFun _ => Some (fun _ _ => Normal (VStr "later")) | _ => None end.

End Sample.

(** * Properties *)

(** ** Values *)

Lemma strict_equal_eq a b : strict_equal a b = true → a = b.
Proof.
  unfold strict_equal.
  destruct a, b; try discriminate; intros H; by apply bool_decide_eq_true in H.
Qed.

(** ** The stateful selector *)

(** [run] never throws: its [catch] block absorbs what the derivation
    throws. *)
Lemma call_run_ran e p s : Selector.call_run e p s = Normal (ran e p s).
Proof.
  unfold ran, Selector.call_run, Selector.runComponentSelector_body, try_catch.
  destruct (Selector.run s); [|done].
  by destruct (Selector.derive e p).
Qed.

Lemma ran_cases e p s :
  ran e p s = s
  ∨ (Selector.run s = Selector.runComponentSelector
     ∧ ((∃ v, Selector.derive e p = Normal v ∧ ran e p s = updated s v)
        ∨ (∃ x, Selector.derive e p = Throw x ∧ ran e p s = faulted s x))).
Proof.
  unfold ran, Selector.call_run, Selector.runComponentSelector_body, try_catch.
  destruct (Selector.run s) eqn:Hrun; [|by left].
  destruct (Selector.derive e p) as [v|x] eqn:Hd.
  - destruct (negb _ || _); [|by left].
    right. split; [done|]. left. exists v. split; [done|].
    unfold updated. by rewrite Hrun.
  - right. split; [done|]. right. exists x. split; [done|].
    unfold faulted. by rewrite Hrun.
Qed.

Lemma ran_takes e p s v :
  Selector.run s = Selector.runComponentSelector →
  Selector.derive e p = Normal v →
  strict_equal v (Selector.props s) = false ∨ truthy (Selector.error s) = true →
  ran e p s = updated s v.
Proof.
  intros Hrun Hd Hc. unfold ran, Selector.call_run. rewrite Hrun.
  unfold Selector.runComponentSelector_body, try_catch. rewrite Hd.
  destruct Hc as [-> | ->]; simpl; [reflexivity|].
  rewrite orb_true_r. reflexivity.
Qed.

Lemma ran_keeps e p s v :
  Selector.run s = Selector.runComponentSelector →
  Selector.derive e p = Normal v →
  strict_equal v (Selector.props s) = true →
  truthy (Selector.error s) = false →
  ran e p s = s.
Proof.
  intros Hrun Hd Heq Herr. unfold ran, Selector.call_run. rewrite Hrun.
  unfold Selector.runComponentSelector_body, try_catch. by rewrite Hd, Heq, Herr.
Qed.

Lemma ran_faults e p s x :
  Selector.run s = Selector.runComponentSelector →
  Selector.derive e p = Throw x →
  ran e p s = faulted s x.
Proof.
  intros Hrun Hd. unfold ran, Selector.call_run. rewrite Hrun.
  unfold Selector.runComponentSelector_body, try_catch. by rewrite Hd.
Qed.




(** C3. A [run] whose derivation throws, in [store.getState] or in the
    source selector: [run] itself returns normally, with the thrown value
    stored in [selector.error], [shouldComponentUpdate] raised and the
    props left as they were. *)
Theorem run_failure_captured (e : Selector.env) (p : object)
    (s : Selector.selector) (err : value) :
  Selector.run s = Selector.runComponentSelector →
  Selector.derive e p = Throw err →
  ∃ s', Selector.call_run e p s = Normal s'
        ∧ Selector.error s' = err
        ∧ Selector.shouldComponentUpdate s' = VBool true
        ∧ Selector.props s' = Selector.props s
        ∧ Selector.run s' = Selector.run s.
Proof.
  intros Hrun Hd. exists (faulted s err).
  by rewrite call_run_ran, (ran_faults e p s err Hrun Hd).
Qed.

Lemma run_failure_captured_witness :
  (∃ s', Selector.call_run (Example.throwing (VError "boom")) Example.ownProps
           Example.settled = Normal s'
         ∧ Selector.error s' = VError "boom"
         ∧ Selector.shouldComponentUpdate s' = VBool true
         ∧ Selector.props s' = Selector.props Example.settled
         ∧ Selector.run s' = Selector.run Example.settled)
  ∧ (∃ s', Selector.call_run
             {| Selector.getState := Throw (VError "gone");
                Selector.sourceSelector := fun _ _ => Normal (VObj 1) |}
             Example.ownProps Example.settled = Normal s'
           ∧ Selector.error s' = VError "gone"
           ∧ Selector.shouldComponentUpdate s' = VBool true
           ∧ Selector.props s' = Selector.props Example.settled
           ∧ Selector.run s' = Selector.run Example.settled).
Proof.
  split.
  - apply (run_failure_captured (Example.throwing (VError "boom")) Example.ownProps
             Example.settled (VError "boom")); reflexivity.
  - apply (run_failure_captured _ Example.ownProps Example.settled (VError "gone"));
      reflexivity.
Defined.

(** ** The Controller *)

(** Unfolds the combinators the methods are written with. *)
Ltac unfold_M :=
  unfold run_selector in *;
  unfold bind, read, assign, emit, when, lift, ret, throw, forget,
    on_node, new_Subscription, forceUpdate, setState in *;
  simpl in *; rewrite ?call_run_ran in *.

Lemma run_selector_eq (e : Selector.env) (p : object) (st : state) :
  run_selector e p st = (Normal tt, with_run e p st).
Proof. unfold with_run. unfold_M. done. Qed.

(** Case analysis on every [match] that is stuck. *)
Ltac crunch :=
  repeat (case_match; simpl in *; rewrite ?call_run_ran in *; simplify_eq).

Lemma render_state st : snd (render st) = flag_reset st.
Proof.
  unfold render, flag_reset. unfold_M. simpl.
  by destruct (truthy (Selector.error (selector (this st)))).
Qed.

Lemma render_throws st :
  truthy (Selector.error (selector (this st))) = true →
  fst (render st) = Throw (Selector.error (selector (this st))).
Proof. intros H. unfold render. unfold_M. simpl. by rewrite H. Qed.

Lemma render_returns st :
  truthy (Selector.error (selector (this st))) = false →
  fst (render st) = Normal (renderChild (this (flag_reset st))).
Proof. intros H. unfold render. unfold_M. simpl. by rewrite H. Qed.

(** C9. Every call of [render] leaves [selector.shouldComponentUpdate]
    at [false] and changes nothing else, whether it then throws the stored
    error or returns the child element: the flag is consumed by the render
    itself. *)
Theorem render_consumes_flag (st : state) :
  snd (render st) = flag_reset st
  ∧ Selector.shouldComponentUpdate (selector (this (snd (render st)))) = VBool false
  ∧ (truthy (Selector.error (selector (this st))) = true →
       fst (render st) = Throw (Selector.error (selector (this st))))
  ∧ (truthy (Selector.error (selector (this st))) = false →
       fst (render st) = Normal (renderChild (this (flag_reset st)))).
Proof.
  rewrite render_state. repeat split.
  - apply render_throws.
  - apply render_returns.
Qed.

Lemma render_consumes_flag_witness :
  fst (render Example.mounted)
    = Normal (renderChild (this (flag_reset Example.mounted)))
  ∧ fst (render Example.broken) = Throw (VError "boom").
Proof.
  split.
  - apply (render_consumes_flag Example.mounted). reflexivity.
  - apply (render_consumes_flag Example.broken). reflexivity.
Defined.

(** *** What one call can do to the instance *)


Ltac unfold_calls :=
  unfold after, perform, componentDidMount, componentWillReceiveProps,
    shouldComponentUpdate, render, commit, componentWillUnmount, onStateChange,
    getWrappedInstance, setWrappedInstance, isSubscribed,
    notifyNestedSubsOnComponentDidUpdate, call_notifyNestedSubs,
    Subscription.trySubscribe, Subscription.tryUnsubscribe,
    Subscription.notifyNestedSubs in *;
  unfold_M.

(** Closes [∃ es, l = l0 ++ es ∧ P es] for the shapes a log takes. *)
Ltac extend_log :=
  first
    [ exists []; split; [by rewrite app_nil_r|]
    | eexists; split; [reflexivity|]
    | eexists; split; [symmetry; apply app_assoc|] ].

(** The log only grows, and a call adds a [notifyNestedSubs] to it only if
    it is [onStateChange], or the commit hook while it is installed. *)
Lemma after_log (c : call) (st : state) :
  ∃ es, log (after c st) = log st ++ es
        ∧ (existsb is_notify es = true →
           is_onStateChange c = true
           ∨ (c = Commit ∧ componentDidUpdate (this st)
                           = Some notifyNestedSubsOnComponentDidUpdate_fn)).
Proof.
  destruct c; unfold_calls; simpl;
    crunch;
    extend_log; simpl; intros; try discriminate; auto.
Qed.

(** The commit hook is installed by [onStateChange] only. *)
Lemma after_hook (c : call) (st : state) (h : hook) :
  componentDidUpdate (this (after c st)) = Some h →
  is_onStateChange c = true ∨ componentDidUpdate (this st) = Some h.
Proof.
  intros H. destruct c; unfold_calls; simpl in *;
    crunch; auto.
Qed.

Lemma notifications_app l1 l2 :
  notifications (l1 ++ l2) = notifications l1 ++ notifications l2.
Proof. apply List.filter_app. Qed.

Lemma notifications_none es :
  existsb is_notify es = false → notifications es = [].
Proof.
  induction es as [|x es IH]; simpl; [done|].
  destruct (is_notify x); simpl; [discriminate|]. exact IH.
Qed.

Lemma after_quiet (c : call) (st : state) :
  is_onStateChange c = false →
  componentDidUpdate (this st) = None →
  notifications (log (after c st)) = notifications (log st).
Proof.
  intros Hc Hh. destruct (after_log c st) as (es & -> & Hes).
  rewrite notifications_app.
  destruct (existsb is_notify es) eqn:He.
  - destruct (Hes eq_refl) as [?|[_ ?]]; congruence.
  - by rewrite (notifications_none es He), app_nil_r.
Qed.

Lemma after_all_quiet (cs : list call) (st : state) :
  forallb (fun c => negb (is_onStateChange c)) cs = true →
  componentDidUpdate (this st) = None →
  componentDidUpdate (this (after_all cs st)) = None
  ∧ notifications (log (after_all cs st)) = notifications (log st).
Proof.
  revert st. induction cs as [|c cs IH]; intros st Hcs Hh; simpl in *; [done|].
  apply andb_true_iff in Hcs as [Hc Hcs]. apply negb_true_iff in Hc.
  assert (Hh' : componentDidUpdate (this (after c st)) = None).
  { destruct (componentDidUpdate (this (after c st))) as [h|] eqn:E; [|done].
    destruct (after_hook c st h E); congruence. }
  destruct (IH (after c st) Hcs Hh') as [? ->].
  split; [done|]. by apply after_quiet.
Qed.

(** *** Notification received *)

Lemma onStateChange_eq (e : Selector.env) (st : state) :
  onStateChange e st =
  let st' := with_run e (getRestProps (props (this st))) st in
  if truthy (Selector.shouldComponentUpdate (selector (this st'))) then
    (Normal tt,
     {| this := set_componentDidUpdate (Some notifyNestedSubsOnComponentDidUpdate_fn)
                  (this st');
        subs := subs st; log := log st ++ [ESetState] |})
  else call_notifyNestedSubs st'.
Proof.
  unfold onStateChange, with_run. unfold_M. simpl.
  by destruct (truthy _).
Qed.

Lemma ran_keeps_flag e p s :
  truthy (Selector.shouldComponentUpdate s) = true →
  truthy (Selector.shouldComponentUpdate (ran e p s)) = true.
Proof.
  intros H.
  destruct (ran_cases e p s) as [->|[_ [[v [_ ->]]|[x [_ ->]]]]]; done.
Qed.

(** While an update is pending, further notifications only request further
    updates. *)
Lemma pending_stays_pending (es : list Selector.env) (st : state) (r : loc) :
  truthy (Selector.shouldComponentUpdate (selector (this st))) = true →
  componentDidUpdate (this st) = Some notifyNestedSubsOnComponentDidUpdate_fn →
  notifyNestedSubs (this st) = NotifyBound r →
  let st' := after_all (map OnStateChange es) st in
  truthy (Selector.shouldComponentUpdate (selector (this st'))) = true
  ∧ componentDidUpdate (this st') = Some notifyNestedSubsOnComponentDidUpdate_fn
  ∧ notifyNestedSubs (this st') = NotifyBound r
  ∧ notifications (log st') = notifications (log st).
Proof.
  revert st. induction es as [|e es IH]; intros st Hf Hh Hn; simpl; [done|].
  assert (Hstep : after (OnStateChange e) st =
                  {| this := set_componentDidUpdate
                               (Some notifyNestedSubsOnComponentDidUpdate_fn)
                               (this (with_run e (getRestProps (props (this st))) st));
                     subs := subs st; log := log st ++ [ESetState] |}).
  { unfold after, perform, forget. rewrite onStateChange_eq. simpl.
    by rewrite (ran_keeps_flag _ _ _ Hf). }
  pose proof (IH (after (OnStateChange e) st)) as IH'.
  rewrite Hstep in IH' |- *.
  destruct IH' as (? & ? & ? & Hl);
    [exact (ran_keeps_flag e _ _ Hf) | done | done |].
  repeat split; try done.
  etrans; [exact Hl|]. simpl. rewrite notifications_app. simpl. by rewrite app_nil_r.
Qed.

Lemma commit_fires_once (st : state) (r : loc) :
  componentDidUpdate (this st) = Some notifyNestedSubsOnComponentDidUpdate_fn →
  notifyNestedSubs (this st) = NotifyBound r →
  log (after Commit st) = log st ++ [ENotifyNestedSubs r]
  ∧ componentDidUpdate (this (after Commit st)) = None
  ∧ log (after Commit (after Commit st)) = log (after Commit st).
Proof.
  intros Hh Hn. unfold_calls. simpl. rewrite Hh. simpl. rewrite Hn. simpl. done.
Qed.

Lemma render_keeps_hook (st : state) :
  componentDidUpdate (this (after Render st)) = componentDidUpdate (this st)
  ∧ notifyNestedSubs (this (after Render st)) = notifyNestedSubs (this st)
  ∧ log (after Render st) = log st.
Proof.
  unfold after, perform, forget. simpl. by rewrite render_state.
Qed.

(** C1. [onStateChange] on a Controller whose [notifyNestedSubs] is bound
    to its node [r]: the selector is re-run on the current props. If
    [shouldComponentUpdate] is then falsy, [notifyNestedSubs()] is called at
    once and no update is requested. If it is truthy, nothing is forwarded:
    an update is requested with [setState] and the commit hook is
    installed; when the update has rendered and committed the hook calls
    [notifyNestedSubs()] once, having removed itself first, so that a
    further commit forwards nothing. This also holds when more
    notifications arrive before the commit. *)
Theorem onStateChange_forwards_or_defers (e : Selector.env) (st : state) (r : loc) :
  notifyNestedSubs (this st) = NotifyBound r →
  let s' := ran e (getRestProps (props (this st))) (selector (this st)) in
  let st1 := snd (onStateChange e st) in
  fst (onStateChange e st) = Normal tt
  ∧ selector (this st1) = s'
  ∧ (truthy (Selector.shouldComponentUpdate s') = false →
       log st1 = log st ++ [ENotifyNestedSubs r]
       ∧ componentDidUpdate (this st1) = componentDidUpdate (this st))
  ∧ (truthy (Selector.shouldComponentUpdate s') = true →
       log st1 = log st ++ [ESetState]
       ∧ componentDidUpdate (this st1) = Some notifyNestedSubsOnComponentDidUpdate_fn
       ∧ (let st2 := after Commit (after Render st1) in
          log st2 = log st ++ [ESetState; ENotifyNestedSubs r]
          ∧ componentDidUpdate (this st2) = None
          ∧ log (after Commit st2) = log st2)
       ∧ (∀ es : list Selector.env,
            let st2 := after Commit (after Render (after_all (map OnStateChange es) st1)) in
            notifications (log st2) = notifications (log st) ++ [ENotifyNestedSubs r]
            ∧ notifications (log (after Commit st2)) = notifications (log st2))).
Proof.
  intros Hn s' st1. subst st1. rewrite onStateChange_eq. simpl. fold s'.
  destruct (truthy (Selector.shouldComponentUpdate s')) eqn:Hf.
  - simpl. split; [done|]. split; [done|]. split; [done|]. intros _.
    set (st1 := {| this := set_componentDidUpdate _ _; subs := _; log := _ |}).
    assert (Hh1 : componentDidUpdate (this st1)
                  = Some notifyNestedSubsOnComponentDidUpdate_fn) by done.
    assert (Hn1 : notifyNestedSubs (this st1) = NotifyBound r) by done.
    split; [done|]. split; [done|]. split.
    + destruct (render_keeps_hook st1) as (Hh & Hb & Hl).
      destruct (commit_fires_once (after Render st1) r) as (Hc1 & Hc2 & Hc3);
        [by rewrite Hh | by rewrite Hb |].
      split; [|split; [exact Hc2 | exact Hc3]].
      rewrite Hc1, Hl. simpl. by rewrite <- app_assoc.
    + intros es.
      destruct (pending_stays_pending es st1 r Hf Hh1 Hn1) as (_ & Hh & Hb & Hl).
      destruct (render_keeps_hook (after_all (map OnStateChange es) st1))
        as (Hh' & Hb' & Hl').
      destruct (commit_fires_once
                  (after Render (after_all (map OnStateChange es) st1)) r)
        as (Hc1 & _ & Hc3); [by rewrite Hh', Hh | by rewrite Hb', Hb |].
      split; [|by rewrite Hc3].
      rewrite Hc1, Hl', notifications_app, Hl. subst st1. simpl.
      by rewrite notifications_app, app_nil_r.
  - unfold call_notifyNestedSubs, with_run. unfold_M. simpl. rewrite Hn. simpl.
    split; [done|]. split; [done|]. split; [done|]. intros ?; discriminate.
Qed.

Lemma onStateChange_forwards_or_defers_witness :
  log (snd (onStateChange (Example.returning 200) Example.rendered))
    = log Example.rendered ++ [ENotifyNestedSubs 0]
  ∧ log (after Commit (after Render
           (snd (onStateChange (Example.returning 201) Example.rendered))))
    = log Example.rendered ++ [ESetState; ENotifyNestedSubs 0].
Proof.
  split.
  - destruct (onStateChange_forwards_or_defers (Example.returning 200)
                Example.rendered 0) as (_ & _ & Hnow & _); [reflexivity|].
    apply Hnow. reflexivity.
  - destruct (onStateChange_forwards_or_defers (Example.returning 201)
                Example.rendered 0) as (_ & _ & _ & Hlater); [reflexivity|].
    destruct Hlater as (_ & _ & (Hlog & _) & _); [reflexivity|].
    exact Hlog.
Defined.

(** *** Input change *)

(** C10. [componentWillReceiveProps] re-runs the selector on the new props
    and does nothing else: it adds no effect to the log and leaves the
    commit hook as it was. More generally a call adds a [notifyNestedSubs]
    only if it is [onStateChange], or the commit of an update while the hook
    is installed; the hook is installed by [onStateChange] alone; hence a
    sequence of calls without [onStateChange], started with no hook
    installed, calls [notifyNestedSubs] never. *)
Theorem props_change_never_notifies :
  (∀ (e : Selector.env) (nextProps : object) (st : state),
     componentWillReceiveProps e nextProps st
       = (Normal tt, with_run e (getRestProps nextProps) st)
     ∧ log (after (ComponentWillReceiveProps e nextProps) st) = log st
     ∧ componentDidUpdate (this (after (ComponentWillReceiveProps e nextProps) st))
       = componentDidUpdate (this st))
  ∧ (∀ (c : call) (st : state),
       ∃ es, log (after c st) = log st ++ es
             ∧ (existsb is_notify es = true →
                is_onStateChange c = true
                ∨ (c = Commit
                   ∧ componentDidUpdate (this st)
                     = Some notifyNestedSubsOnComponentDidUpdate_fn)))
  ∧ (∀ (c : call) (st : state) (h : hook),
       componentDidUpdate (this (after c st)) = Some h →
       is_onStateChange c = true ∨ componentDidUpdate (this st) = Some h)
  ∧ (∀ (cs : list call) (st : state),
       forallb (fun c => negb (is_onStateChange c)) cs = true →
       componentDidUpdate (this st) = None →
       notifications (log (after_all cs st)) = notifications (log st)).
Proof.
  split; [|split; [|split]].
  - intros e nextProps st.
    unfold after, perform, forget, bind, assign, componentWillReceiveProps.
    by rewrite run_selector_eq.
  - apply after_log.
  - apply after_hook.
  - intros cs st Hcs Hh. by apply after_all_quiet.
Qed.

Lemma props_change_never_notifies_witness :
  notifications
    (log (after_all
            [Render; ComponentDidMount (Example.returning 201);
             ComponentWillReceiveProps (Example.returning 202) Example.ownProps;
             Render; Commit;
             ComponentWillReceiveProps (Example.throwing (VError "boom")) ∅;
             Render; Commit; ComponentWillUnmount]
            Example.mounted))
  = notifications (log Example.mounted).
Proof.
  apply (proj2 (proj2 (proj2 props_change_never_notifies))); reflexivity.
Defined.

(** *** Render/read of a stored error *)




(** *** Detach *)

Lemma inert_enter (x : stale) (st : state) :
  inert st → enter x st = (Normal tt, st).
Proof.
  intros (Hrun & Hflag & Hn).
  destruct st as [[? ? ? ? ? ? [? ? ? ?] ? ? ? ?] ? ?]; simpl in *; subst.
  destruct x; reflexivity.
Qed.

Lemma inert_enter_all (l : list stale) (st : state) :
  inert st → enter_all l st = (Normal tt, st).
Proof.
  intros H. induction l as [|x l IH]; simpl; [done|].
  unfold bind. by rewrite (inert_enter x st H).
Qed.

Lemma componentWillUnmount_eq (st : state) :
  subscription_ok st →
  componentWillUnmount st =
  (Normal tt,
   {| this :=
        set_selector
          (set_shouldComponentUpdate (VBool false)
             (set_run Selector.noop (selector (this st))))
          (set_store VNull
             (set_notifyNestedSubs NotifyNoop (set_subscription VNull (this st))));
      subs :=
        match subscription (this st) with
        | VObj r =>
            match subs st !! r with
            | Some n => <[r := fst (Subscription.tryUnsubscribe r n)]> (subs st)
            | None => subs st
            end
        | _ => subs st
        end;
      log :=
        match subscription (this st) with
        | VObj r =>
            match subs st !! r with
            | Some n => log st ++ snd (Subscription.tryUnsubscribe r n)
            | None => log st
            end
        | _ => log st
        end |}).
Proof.
  unfold subscription_ok, componentWillUnmount. unfold_M. simpl.
  destruct (subscription (this st)) eqn:Hs; simpl; intros Hok;
    try rewrite Hok; try done.
  destruct Hok as [n Hn]. rewrite Hn.
  by destruct (Subscription.tryUnsubscribe r n).
Qed.

(** C5. [componentWillUnmount] returns normally and leaves the Controller
    inert: the node it owned holds no unsubscribe handle any more (the
    handle, if one was held, has been invoked), [this.subscription] is
    [null], [selector.run] is [noop], [shouldComponentUpdate] is [false] and
    [this.notifyNestedSubs] is [noop]. Any later sequence of calls of
    [selector.run], of [notifyNestedSubs] or of the node's listener
    [onStateChange] returns normally every time and changes neither the
    instance, nor the nodes, nor the log. *)
Theorem unmount_makes_inert (st : state) :
  subscription_ok st →
  let st' := snd (componentWillUnmount st) in
  fst (componentWillUnmount st) = Normal tt
  ∧ (∀ r n, subscription (this st) = VObj r → subs st !! r = Some n →
       ∃ n', subs st' !! r = Some n'
             ∧ Subscription.isSubscribed n' = false
             ∧ log st' = log st ++ (if Subscription.isSubscribed n
                                     then [EUpstreamUnsubscribe r] else []))
  ∧ subscription (this st') = VNull
  ∧ Selector.run (selector (this st')) = Selector.noop
  ∧ Selector.shouldComponentUpdate (selector (this st')) = VBool false
  ∧ notifyNestedSubs (this st') = NotifyNoop
  ∧ (∀ l : list stale, enter_all l st' = (Normal tt, st')).
Proof.
  intros Hok st'. subst st'. rewrite (componentWillUnmount_eq st Hok). simpl.
  split; [done|]. split.
  - intros r n Hs Hn. rewrite Hs, Hn.
    exists (fst (Subscription.tryUnsubscribe r n)).
    split; [apply list_lookup_insert_eq; by eapply lookup_lt_Some|].
    unfold Subscription.tryUnsubscribe, Subscription.isSubscribed.
    destruct (Subscription.unsubscribe n) eqn:Hu; simpl; [done|].
    split; [done|]. by rewrite app_nil_r.
  - repeat split. intros l. by apply inert_enter_all.
Qed.

Lemma unmount_makes_inert_witness :
  fst (componentWillUnmount Example.mounted) = Normal tt
  ∧ enter_all [StaleStateChange (Example.returning 202); StaleNotify;
               StaleRun (Example.throwing (VError "boom")) Example.ownProps]
      (snd (componentWillUnmount Example.mounted))
    = (Normal tt, snd (componentWillUnmount Example.mounted)).
Proof.
  assert (Hok : subscription_ok Example.mounted).
  { vm_compute. eexists. reflexivity. }
  destruct (unmount_makes_inert Example.mounted Hok)
    as (Hret & _ & _ & _ & _ & _ & Hl).
  split; [exact Hret | apply Hl].
Defined.

(** *** Construction and attach *)


Lemma new_unresolved K e c p ctx nodes x :
  truthy (store_of p ctx) = true →
  resolve K c p ctx = Throw x →
  fst (new K e c p ctx nodes) = Throw x.
Proof.
  intros H Hr. unfold new, constructor, initialize, initSelector. unfold_M. simpl.
  fold (store_of p ctx). rewrite H. simpl.
  unfold resolve, initMapStateToProps, initMapDispatchToProps, initMergeProps,
    factoryOptions_of in Hr.
  unfold shouldHandleStateChanges, getOptions. simpl. by rewrite Hr.
Qed.

Lemma new_resolved K e c p ctx nodes stages :
  truthy (store_of p ctx) = true →
  resolve K c p ctx = Normal stages →
  new K e c p ctx nodes = (Normal tt, constructed e c p ctx nodes).
Proof.
  intros H Hr.
  unfold new, constructor, initialize, initSelector, initSubscription. unfold_M.
  simpl. fold (store_of p ctx). rewrite H. simpl.
  unfold resolve, initMapStateToProps, initMapDispatchToProps, initMergeProps,
    factoryOptions_of in Hr.
  unfold shouldHandleStateChanges, getOptions. simpl. rewrite Hr. simpl.
  unfold constructed, selected, own_node. simpl.
  by destruct (truthy (mapStateToProps (cls_opts c))).
Qed.

Lemma componentDidMount_eq (e : Selector.env) (st : state) (r : loc)
    (n : Subscription.node) :
  shouldHandleStateChanges (this st) = true →
  subscription (this st) = VObj r →
  subs st !! r = Some n →
  componentDidMount e st =
  (Normal tt,
   let s' := ran e (getRestProps (props (this st))) (selector (this st)) in
   {| this := set_selector s' (this st);
      subs := <[r := fst (Subscription.trySubscribe r n)]> (subs st);
      log := (log st ++ snd (Subscription.trySubscribe r n))
             ++ (if truthy (Selector.shouldComponentUpdate s')
                 then [EForceUpdate] else []) |}).
Proof.
  intros Hh Hs Hn. unfold componentDidMount. unfold_M. simpl.
  rewrite Hh. simpl. rewrite Hs, Hn.
  destruct (Subscription.trySubscribe r n) as [n' es]. simpl.
  rewrite call_run_ran. simpl.
  destruct (truthy _); simpl; [done|]. by rewrite app_nil_r.
Qed.

(** C8. Construction subscribes nothing: it creates the Controller's node,
    unsubscribed, only when the component has a state-derivation stage.
    [componentDidMount] of such a component subscribes the node upstream
    (once: nothing is registered if it is subscribed already), then re-runs
    the selector on the current props and, if [shouldComponentUpdate] is
    truthy after that run, calls [forceUpdate]. For a component without a
    state-derivation stage neither [initSubscription] nor
    [componentDidMount] does anything: no node, no subscription, no forced
    update. *)
Theorem attach_subscribes_then_reruns :
  (∀ K e c p ctx nodes stages,
     truthy (store_of p ctx) = true →
     resolve K c p ctx = Normal stages →
     let st := snd (new K e c p ctx nodes) in
     log st = []
     ∧ (truthy (mapStateToProps (cls_opts c)) = true →
          subscription (this st) = VObj (length nodes)
          ∧ subs st = nodes ++ [own_node p ctx]
          ∧ Subscription.isSubscribed (own_node p ctx) = false)
     ∧ (truthy (mapStateToProps (cls_opts c)) = false →
          subscription (this st) = VUndefined ∧ subs st = nodes))
  ∧ (∀ (e : Selector.env) (st : state) (r : loc) (n : Subscription.node),
       shouldHandleStateChanges (this st) = true →
       subscription (this st) = VObj r →
       subs st !! r = Some n →
       let s' := ran e (getRestProps (props (this st)))
                   (selector (this st)) in
       let st' := snd (componentDidMount e st) in
       fst (componentDidMount e st) = Normal tt
       ∧ selector (this st') = s'
       ∧ (∃ n', subs st' !! r = Some n' ∧ Subscription.isSubscribed n' = true)
       ∧ log st' = log st
                   ++ (if Subscription.isSubscribed n then []
                       else [EUpstreamSubscribe r (Subscription.upstream n)])
                   ++ (if truthy (Selector.shouldComponentUpdate s')
                       then [EForceUpdate] else []))
  ∧ (∀ (e : Selector.env) (st : state),
       shouldHandleStateChanges (this st) = false →
       componentDidMount e st = (Normal tt, st)
       ∧ initSubscription st = (Normal tt, st)).
Proof.
  split; [|split].
  - intros K e c p ctx nodes stages Hstore Hr st. subst st.
    rewrite (new_resolved K e c p ctx nodes stages Hstore Hr). simpl.
    unfold constructed.
    destruct (truthy (mapStateToProps (cls_opts c))); simpl;
      (split; [done|]); split; try done.
  - intros e st r n Hh Hs Hn s' st'. subst st'.
    rewrite (componentDidMount_eq e st r n Hh Hs Hn). simpl. fold s'.
    split; [done|]. split; [done|]. split.
    + exists (fst (Subscription.trySubscribe r n)).
      split; [apply list_lookup_insert_eq; by eapply lookup_lt_Some|].
      unfold Subscription.trySubscribe, Subscription.isSubscribed.
      by destruct (Subscription.unsubscribe n) eqn:Hu.
    + rewrite <- app_assoc. f_equal. f_equal.
      unfold Subscription.trySubscribe, Subscription.isSubscribed.
      by destruct (Subscription.unsubscribe n).
  - intros e st Hh. unfold componentDidMount, initSubscription. unfold_M.
    simpl. by rewrite Hh.
Qed.

Lemma attach_subscribes_then_reruns_witness :
  (subscription (this Example.mounted) = VObj 0
   ∧ subs Example.mounted = [] ++ [own_node Example.ownProps Example.ambient]
   ∧ Subscription.isSubscribed (own_node Example.ownProps Example.ambient) = false)
  ∧ log (snd (componentDidMount (Example.returning 201) Example.rendered))
    = log Example.rendered ++ [EUpstreamSubscribe 0 (VObj 7)] ++ [EForceUpdate]
  ∧ componentDidMount (Example.returning 201) Example.unsubscribed
    = (Normal tt, Example.unsubscribed).
Proof.
  split; [|split].
  - destruct (proj1 attach_subscribes_then_reruns Example.K (Example.returning 200)
                Example.Connected Example.ownProps Example.ambient []
                (Example.mapState, VUndefined, VUndefined))
      as (_ & H & _); [reflexivity | reflexivity |].
    apply H. reflexivity.
  - destruct (proj1 (proj2 attach_subscribes_then_reruns) (Example.returning 201)
                Example.rendered 0 (own_node Example.ownProps Example.ambient))
      as (_ & _ & _ & H); [reflexivity | reflexivity | reflexivity |].
    exact H.
  - apply (proj2 (proj2 attach_subscribes_then_reruns)). reflexivity.
Defined.

(** *** Setup faults *)

Lemma append_assoc (a b c : string) : (a +:+ b) +:+ c = a +:+ b +:+ c.
Proof.
  induction a as [|x a IH]; [done|].
  change (String x ((a +:+ b) +:+ c) = String x (a +:+ b +:+ c)).
  by rewrite IH.
Qed.





Lemma match_unmatched arg factories name dispatch o :
  unmatched arg factories →
  match_ arg factories name dispatch o
    = Throw (VError (invalid_value_message arg name o)).
Proof. unfold unmatched, match_. by intros ->. Qed.

Section setup.

Variable stringify : value → string.


End setup.

Lemma connect_App :
  connect Example.stringify Example.mapState VUndefined VUndefined
    Example.noOptions (VFun Example.App)
  = Normal Example.Connected.
Proof. reflexivity. Qed.


(** *** The subscription handed to descendants *)

Lemma slot_eq (i : instance) :
  slot i = or_else (if propsMode i then VNull else subscription i)
             (get (context i) subscriptionKey).
Proof. unfold slot, getChildContext, get. by rewrite lookup_singleton_eq. Qed.

(** A Controller given its store as a prop does not put its own node in
    the slot: at [Example.explicit] the Controller owns node [1] and the
    slot still carries the ambient node [0]. *)
Lemma propsMode_slot_is_ambient :
  propsMode (this Example.explicit) = true
  ∧ subscription (this Example.explicit) = VObj 1
  ∧ slot (this Example.explicit) = VObj 0
  ∧ slot (this Example.explicit) ≠ subscription (this Example.explicit).
Proof. vm_compute. repeat split. discriminate. Qed.

(** C7, as the code has it. A Controller given its store as a prop leaves
    the slot to the ambient tree: its child context carries the
    subscription of its own context, and its own node, when it has one, is
    handed to the wrapped component as the [storeSubscription] prop, on a
    copy of the derived props; the node itself takes its parent from the
    props, not from the context. A Controller that takes the store from the
    context puts its own node in the slot when it has one, shadowing the
    enclosing one, and passes the enclosing one along otherwise. *)
Theorem slot_by_store_origin :
  (∀ i : instance,
     propsMode i = true →
     slot i = get (context i) subscriptionKey
     ∧ (truthy (subscription i) = true →
        ∀ p, ∃ extras, addExtraProps i p = WithExtras p extras
                       ∧ extras !! subscriptionKey = Some (subscription i)))
  ∧ (∀ i : instance,
       propsMode i = false →
       (truthy (subscription i) = true → slot i = subscription i)
       ∧ (truthy (subscription i) = false → slot i = get (context i) subscriptionKey)
       ∧ (truthy (withRef (opt_options (getOptions i))) = false →
          ∀ p, addExtraProps i p = Same p))
  ∧ (∀ K e c p ctx nodes stages,
       truthy (store_of p ctx) = true →
       resolve K c p ctx = Normal stages →
       truthy (mapStateToProps (cls_opts c)) = true →
       let st := snd (new K e c p ctx nodes) in
       propsMode (this st) = truthy (get p storeKey)
       ∧ subscription (this st) = VObj (length nodes)
       ∧ ∃ n, subs st !! length nodes = Some n
              ∧ Subscription.parentSub n
                = get (if propsMode (this st) then p else ctx) subscriptionKey).
Proof.
  split; [|split].
  - intros i Hp. rewrite slot_eq, Hp. split; [done|].
    intros Hs p. unfold addExtraProps. rewrite Hp, Hs. simpl.
    rewrite andb_false_r.
    destruct (truthy (withRef (opt_options (getOptions i))));
      eexists; (split; [reflexivity|]); by rewrite lookup_insert_eq.
  - intros i Hp. rewrite slot_eq, Hp. unfold or_else. split; [|split].
    + by intros ->.
    + by intros ->.
    + intros Hr p. unfold addExtraProps. by rewrite Hp, Hr.
  - intros K e c p ctx nodes stages Hstore Hr Hh st. subst st.
    rewrite (new_resolved K e c p ctx nodes stages Hstore Hr).
    unfold constructed. rewrite Hh. simpl. split; [done|]. split; [done|].
    exists (own_node p ctx). split; [|done].
    rewrite lookup_app_r; [|done]. by rewrite Nat.sub_diag.
Qed.

Lemma slot_by_store_origin_witness :
  slot (this Example.explicit) = VObj 0
  ∧ slot (this Example.nested) = VObj 1
  ∧ slot (this Example.unsubscribed) = VUndefined
  ∧ subscription (this Example.explicit) = VObj 1.
Proof.
  destruct slot_by_store_origin as (Hprops & Hcontext & Hnode).
  split; [|split; [|split]].
  - destruct (Hprops (this Example.explicit)) as (H & _); [reflexivity|]. exact H.
  - destruct (Hcontext (this Example.nested)) as (H & _ & _); [reflexivity|].
    apply H. reflexivity.
  - destruct (Hcontext (this Example.unsubscribed)) as (_ & H & _); [reflexivity|].
    apply H. reflexivity.
  - destruct (Hnode Example.K (Example.returning 200) Example.Connected
                {[ storeKey := VObj 8 ]}
                (<[subscriptionKey := VObj 0]> Example.ambient)
                [Subscription.Node (VObj 7) VUndefined true]
                (Example.mapState, VUndefined, VUndefined))
      as (_ & H & _); [reflexivity | reflexivity | reflexivity |].
    exact H.
Defined.

(** *** Reachable states *)

Lemma constructed_subscription_ok e c p ctx nodes :
  subscription_ok (constructed e c p ctx nodes).
Proof.
  unfold subscription_ok, constructed.
  destruct (truthy (mapStateToProps (cls_opts c))); simpl; [|done].
  rewrite lookup_app_r; [|done]. rewrite Nat.sub_diag. by eexists.
Qed.

Lemma after_subscription (c : call) (st : state) :
  subscription (this (after c st)) = subscription (this st)
  ∨ subscription (this (after c st)) = VNull.
Proof.
  destruct c; unfold_calls; simpl;
    crunch; auto.
Qed.

Lemma after_subs_length (c : call) (st : state) :
  length (subs (after c st)) = length (subs st).
Proof.
  destruct c; unfold_calls; simpl;
    crunch;
    rewrite ?length_insert; auto.
Qed.

(** Calls keep [this.subscription] well-formed, so that every state reached
    from a construction satisfies [subscription_ok]. *)
Lemma after_subscription_ok (c : call) (st : state) :
  subscription_ok st → subscription_ok (after c st).
Proof.
  unfold subscription_ok. intros H.
  destruct (after_subscription c st) as [-> | ->]; [|done].
  destruct (subscription (this st)); try done.
  apply lookup_lt_is_Some. rewrite after_subs_length.
  by apply lookup_lt_is_Some.
Qed.

(** * Further properties of the code *)

Local Open Scope nat_scope.

(** ** Factory lookup *)

Ltac arith := unfold factory in *; lia.

Lemma match_loop_found arg (fs : list factory) n i f r :
  fs !! i = Some f → f arg = Some r → i < n → n ≤ length fs →
  (∀ j g, i < j → j < n → fs !! j = Some g → g arg = None) →
  match_loop arg fs n = Some r.
Proof.
  intros Hi Hf. induction n as [|m IH]; intros Hlt Hle Hlater; [lia|].
  cbn [match_loop]. destruct (decide (m = i)) as [->|Hne].
  - by rewrite Hi, Hf.
  - destruct (fs !! m) as [g|] eqn:Hg.
    + rewrite (Hlater m g); [|lia|lia|done].
      apply IH; [lia|arith|]. intros j h ? ?. apply Hlater; lia.
    + apply lookup_ge_None in Hg. arith.
Qed.

Lemma match_loop_none arg (fs : list factory) n :
  n ≤ length fs →
  match_loop arg fs n = None ↔ ∀ j g, j < n → fs !! j = Some g → g arg = None.
Proof.
  induction n as [|m IH]; intros Hle; cbn [match_loop].
  - split; [intros _ j g ?; lia|done].
  - destruct (fs !! m) as [g|] eqn:Hg; [|apply lookup_ge_None in Hg; arith].
    destruct (g arg) as [r|] eqn:Hr.
    + split; [done|]. intros H. rewrite (H m g) in Hr; [done|lia|done].
    + rewrite IH; [|arith]. split.
      * intros H j h Hj Hh. destruct (decide (j = m)) as [->|]; [congruence|].
        apply (H j); [lia|done].
      * intros H j h Hj. apply H. lia.
Qed.

Lemma match_loop_app arg (fs gs : list factory) n :
  n ≤ length fs → match_loop arg (fs ++ gs) n = match_loop arg fs n.
Proof.
  induction n as [|m IH]; intros Hle; cbn [match_loop]; [done|].
  rewrite lookup_app_l; [|arith]. rewrite IH; [done|arith].
Qed.

(** X1. [match] gives precedence to the factories registered last: the
    answer is that of the factory at the highest index that answers. *)
Theorem match_last_answer_wins (arg : value) (fs : list factory) (name : string)
    (i : nat) (f : factory) (r : initFn) :
  fs !! i = Some f → f arg = Some r →
  (∀ j g, i < j → fs !! j = Some g → g arg = None) →
  match_ arg fs name = r.
Proof.
  intros Hi Hf Hlater. unfold match_.
  rewrite (match_loop_found arg fs (length fs) i f r Hi Hf); [done| |lia|].
  - by eapply lookup_lt_Some.
  - intros j g ? _. by apply Hlater.
Qed.

Lemma match_last_answer_wins_witness :
  match_ Example.mapState [Example.whenFunction; Sample.later; Example.whenMissing]
    "mapStateToProps"
  = fun _ _ => Normal (VStr "later").
Proof.
  apply (match_last_answer_wins Example.mapState
           [Example.whenFunction; Sample.later; Example.whenMissing]
           "mapStateToProps" 1 Sample.later); [reflexivity|reflexivity|].
  intros j g Hj Hg. destruct j as [|[|[|j]]]; [lia|lia| |discriminate].
  injection Hg as <-. reflexivity.
Defined.

(** X2. Appending a factory overrides the list where the new factory
    answers and changes nothing where it does not. *)
Theorem match_appended_factory (arg : value) (fs : list factory) (f : factory)
    (name : string) :
  (∀ r, f arg = Some r → match_ arg (fs ++ [f]) name = r)
  ∧ (f arg = None → match_ arg (fs ++ [f]) name = match_ arg fs name).
Proof.
  unfold match_. rewrite length_app, Nat.add_1_r. cbn [match_loop].
  rewrite lookup_app_r, Nat.sub_diag; [|done]. cbn [lookup list_lookup]. split.
  - by intros r ->.
  - intros ->. by rewrite match_loop_app.
Qed.

Lemma match_appended_factory_witness :
  match_ Example.mapState ([Example.whenFunction; Example.whenMissing] ++ [Sample.later])
    "mapStateToProps"
  = (fun _ _ => Normal (VStr "later"))
  ∧ match_ VUndefined ([Example.whenFunction; Example.whenMissing] ++ [Sample.later])
      "mapStateToProps"
    = match_ VUndefined [Example.whenFunction; Example.whenMissing] "mapStateToProps".
Proof.
  split.
  - apply (proj1 (match_appended_factory Example.mapState
                    [Example.whenFunction; Example.whenMissing] Sample.later
                    "mapStateToProps")). reflexivity.
  - apply (proj2 (match_appended_factory VUndefined
                    [Example.whenFunction; Example.whenMissing] Sample.later
                    "mapStateToProps")). reflexivity.
Defined.

(** X3. [match] ends in the function that throws exactly when every
    factory of the list declines the argument; in particular always for an
    empty list. The function it then returns throws on every call. *)
Theorem match_throws_iff_all_decline (arg : value) (fs : list factory) (name : string) :
  (unmatched arg fs ↔ ∀ f, f ∈ fs → f arg = None)
  ∧ unmatched arg []
  ∧ ((∀ f, f ∈ fs → f arg = None) →
     ∀ dispatch o, match_ arg fs name dispatch o
                   = Throw (VError (invalid_value_message arg name o))).
Proof.
  assert (Hiff : unmatched arg fs ↔ ∀ f, f ∈ fs → f arg = None).
  { unfold unmatched. rewrite match_loop_none; [|done]. split.
    - intros H f Hf. apply list_elem_of_lookup in Hf as [j Hj].
      apply (H j f); [by eapply lookup_lt_Some|done].
    - intros H j g _ Hg. apply H. apply list_elem_of_lookup. eauto. }
  split; [exact Hiff|]. split; [done|].
  intros H dispatch o. apply match_unmatched. by apply Hiff.
Qed.

Lemma match_throws_iff_all_decline_witness :
  match_ (VNum 3) [Example.whenFunction; Example.whenMissing] "mergeProps"
    VUndefined (factoryOptions_of Example.Connected)
  = Throw (VError
             "Invalid value of type number for mergeProps argument when connecting component App.").
Proof.
  apply (proj2 (proj2 (match_throws_iff_all_decline (VNum 3)
                         [Example.whenFunction; Example.whenMissing] "mergeProps"))).
  intros f Hf. apply list_elem_of_In in Hf. simpl in Hf.
  destruct Hf as [<-|[<-|[]]]; reflexivity.
Defined.

(** ** Own props handed to the selector *)

Lemma getRestProps_lookup (p : object) (k : string) :
  getRestProps p !! k = if bool_decide (k ∈ rest_excluded) then None else p !! k.
Proof.
  unfold getRestProps, rest_excluded. rewrite !lookup_delete.
  case_bool_decide as Hk.
  - rewrite !elem_of_cons, elem_of_nil in Hk.
    destruct Hk as [->|[->|[->|[->|[->|[]]]]]];
      repeat case_decide; try reflexivity; congruence.
  - rewrite !not_elem_of_cons in Hk. destruct Hk as (? & ? & ? & ? & ? & _).
    repeat case_decide; congruence.
Qed.

(** X4. [getRestProps] removes exactly the five option properties and
    keeps every other property with its value, the store and the
    subscription passed as props included; applying it twice changes nothing
    more. *)
Theorem getRestProps_strips_options (p : object) :
  (∀ k, k ∈ rest_excluded → getRestProps p !! k = None)
  ∧ (∀ k, k ∉ rest_excluded → getRestProps p !! k = p !! k)
  ∧ get (getRestProps p) storeKey = get p storeKey
  ∧ get (getRestProps p) subscriptionKey = get p subscriptionKey
  ∧ getRestProps (getRestProps p) = getRestProps p.
Proof.
  split; [|split; [|split; [|split]]].
  - intros k Hk. rewrite getRestProps_lookup. by rewrite bool_decide_eq_true_2.
  - intros k Hk. rewrite getRestProps_lookup. by rewrite bool_decide_eq_false_2.
  - unfold get. by rewrite getRestProps_lookup.
  - unfold get. by rewrite getRestProps_lookup.
  - apply map_eq. intros k. rewrite !getRestProps_lookup.
    by case_bool_decide.
Qed.

Lemma getRestProps_strips_options_witness :
  getRestProps (<["children" := VObj 3]> (<["a" := VNum 1]> ∅)) !! "children" = None
  ∧ getRestProps (<["children" := VObj 3]> (<["a" := VNum 1]> ∅)) !! "a"
    = Some (VNum 1).
Proof.
  destruct (getRestProps_strips_options
              (<["children" := VObj 3]> (<["a" := VNum 1]> ∅))) as (Hout & Hin & _).
  split.
  - apply Hout. unfold rest_excluded. rewrite !elem_of_cons. auto 10.
  - rewrite Hin; [reflexivity|]. unfold rest_excluded.
    rewrite !not_elem_of_cons. repeat split; try discriminate.
    apply not_elem_of_nil.
Defined.

(** ** The wrapped instance *)

Lemma getWrappedInstance_eq (st : state) :
  getWrappedInstance st =
  if truthy (withRef (opt_options (getOptions (this st)))) then
    (Normal (wrappedInstance (this st)), st)
  else
    (Throw (VError ("To access the wrapped instance, you need to specify " +:+
                    "{ withRef: true } in the options argument of the " +:+
                    methodName +:+ "() call.")), st).
Proof.
  unfold getWrappedInstance, invariant. unfold_M.
  by destruct (truthy (withRef (opt_options (getOptions (this st))))).
Qed.

(** X5. [getWrappedInstance] gives back the reference last handed to
    [setWrappedInstance] when the [withRef] option is truthy, and throws
    otherwise; it never changes the instance. A class made by [connect]
    without a [withRef] option has it off. *)
Theorem wrapped_instance_needs_withRef :
  (∀ (st : state) (ref : value),
     truthy (withRef (opt_options (getOptions (this st)))) = true →
     getWrappedInstance (snd (setWrappedInstance ref st))
       = (Normal ref, snd (setWrappedInstance ref st)))
  ∧ (∀ st : state,
       truthy (withRef (opt_options (getOptions (this st)))) = false →
       ∃ msg, getWrappedInstance st = (Throw (VError msg), st)
              ∧ contains "withRef: true" msg)
  ∧ (∀ stringify mapState mapDispatch merge u f c,
       connect stringify mapState mapDispatch merge u (VFun f) = Normal c →
       withRef (opt_options (cls_opts c)) = default (VBool false) (u_withRef u)).
Proof.
  split; [|split].
  - intros st ref H. rewrite getWrappedInstance_eq.
    unfold setWrappedInstance, assign, getOptions in *. simpl. by rewrite H.
  - intros st H. rewrite getWrappedInstance_eq, H. eexists. split; [reflexivity|].
    exists "To access the wrapped instance, you need to specify { ".
    eexists. rewrite ?append_assoc. reflexivity.
  - intros stringify mapState mapDispatch merge u f c Hc.
    unfold connect in Hc. simpl in Hc. by injection Hc as <-.
Qed.

Lemma wrapped_instance_needs_withRef_witness :
  fst (getWrappedInstance (snd (setWrappedInstance (VObj 77) Sample.referring)))
    = Normal (VObj 77)
  ∧ ∃ msg, getWrappedInstance Example.mounted = (Throw (VError msg), Example.mounted)
           ∧ contains "withRef: true" msg.
Proof.
  destruct wrapped_instance_needs_withRef as (Hon & Hoff & _).
  split.
  - rewrite (Hon Sample.referring (VObj 77)); reflexivity.
  - apply (Hoff Example.mounted). reflexivity.
Defined.

(** ** Subscription status *)

(** X6. [isSubscribed] answers [false], without throwing and without
    reading any node, for a Controller that has no subscription: one built
    without a state-derivation stage, and any Controller after
    [componentWillUnmount]. *)
Theorem isSubscribed_false_without_subscription :
  (∀ st : state,
     truthy (subscription (this st)) = false →
     isSubscribed st = (Normal false, st))
  ∧ (∀ st : state,
       subscription_ok st →
       fst (isSubscribed (snd (componentWillUnmount st))) = Normal false)
  ∧ (∀ K e c p ctx nodes stages,
       truthy (store_of p ctx) = true →
       resolve K c p ctx = Normal stages →
       truthy (mapStateToProps (cls_opts c)) = false →
       fst (isSubscribed (snd (new K e c p ctx nodes))) = Normal false).
Proof.
  split; [|split].
  - intros st H. unfold isSubscribed.
    destruct (subscription (this st)); simpl in *; try rewrite H; try done.
  - intros st Hok. by rewrite (componentWillUnmount_eq st Hok).
  - intros K e c p ctx nodes stages Hstore Hr Hh.
    rewrite (new_resolved K e c p ctx nodes stages Hstore Hr).
    unfold constructed. by rewrite Hh.
Qed.

Lemma isSubscribed_false_without_subscription_witness :
  fst (isSubscribed Sample.unmounted) = Normal false
  ∧ fst (isSubscribed Example.unsubscribed) = Normal false.
Proof.
  destruct isSubscribed_false_without_subscription as (Hnone & _ & Hnew).
  split.
  - rewrite (Hnone Sample.unmounted); reflexivity.
  - apply (Hnew Example.K (Example.returning 200) Example.Detached Example.ownProps
             Example.ambient [] (VUndefined, VUndefined, VUndefined)); reflexivity.
Defined.

(** ** Props handed to the wrapped component *)

Lemma ref_is_not_subscriptionKey : "ref" ≠ subscriptionKey.
Proof. intros H. vm_compute in H. discriminate. Qed.

(** X7. [addExtraProps] returns its argument itself when neither [withRef]
    nor an own subscription in props mode asks for an extra; otherwise it
    returns a copy whose only additions are [ref], present exactly when
    [withRef] is truthy, and [storeSubscription], present exactly when the
    store came as a prop and the Controller has a subscription. *)
Theorem addExtraProps_adds_only_ref_and_subscription (i : instance) (p : value) :
  let wr := truthy (withRef (opt_options (getOptions i))) in
  let own := propsMode i && truthy (subscription i) in
  (wr = false ∧ own = false → addExtraProps i p = Same p)
  ∧ (wr = true ∨ own = true →
     ∃ extras,
       addExtraProps i p = WithExtras p extras
       ∧ extras !! "ref" = (if wr then Some setWrappedInstance_bound else None)
       ∧ extras !! subscriptionKey = (if own then Some (subscription i) else None)
       ∧ ∀ k, k ≠ "ref" → k ≠ subscriptionKey → extras !! k = None).
Proof.
  intros wr own. unfold addExtraProps. fold wr own.
  pose proof ref_is_not_subscriptionKey as Hne.
  split.
  - by intros [-> ->].
  - intros H. destruct wr, own; simpl; try (by destruct H);
      eexists; (split; [reflexivity|]); repeat split;
      try (intros k H1 H2);
      rewrite ?lookup_insert_ne, ?lookup_insert_eq, ?lookup_empty by congruence;
      try done.
Qed.

Lemma addExtraProps_adds_only_ref_and_subscription_witness :
  addExtraProps (this Example.mounted) (VObj 200) = Same (VObj 200)
  ∧ ∃ extras,
      addExtraProps (this Sample.referring) (VObj 200) = WithExtras (VObj 200) extras
      ∧ extras !! "ref" = Some setWrappedInstance_bound
      ∧ extras !! subscriptionKey = None.
Proof.
  split.
  - apply (addExtraProps_adds_only_ref_and_subscription (this Example.mounted)
             (VObj 200)). split; reflexivity.
  - destruct (addExtraProps_adds_only_ref_and_subscription (this Sample.referring)
                (VObj 200)) as (_ & H).
    destruct H as (extras & H1 & H2 & H3 & _); [left; reflexivity|].
    exists extras. split; [exact H1|]. split; [exact H2 | exact H3].
Defined.

(** ** The selector across calls *)

Lemma after_selector_by_call (c : call) (st : state) :
  selector (this (after c st)) ∈ selector_after c (this st).
Proof.
  destruct c; unfold_calls; unfold selector_after; simpl; crunch;
    rewrite ?elem_of_cons; auto.
Qed.


(** X8. The first run of a fresh selector takes whatever the derivation
    returns and raises [shouldComponentUpdate], except when the derivation
    returns [undefined]: that equals the props the fresh selector reads, so
    the selector stays as created, flag unset. *)
Theorem first_run_takes_all_but_undefined (e : Selector.env) (p : object) (v : value) :
  Selector.derive e p = Normal v →
  (v ≠ VUndefined →
     Selector.call_run e p Selector.makeSelectorStateful
       = Normal (updated Selector.makeSelectorStateful v))
  ∧ (v = VUndefined →
       Selector.call_run e p Selector.makeSelectorStateful
         = Normal Selector.makeSelectorStateful
       ∧ truthy (Selector.shouldComponentUpdate Selector.makeSelectorStateful) = false).
Proof.
  intros Hd. rewrite call_run_ran. split.
  - intros Hv. f_equal. apply ran_takes; [done|done|]. left.
    destruct (strict_equal v (Selector.props Selector.makeSelectorStateful)) eqn:E;
      [|done].
    apply strict_equal_eq in E. by destruct Hv.
  - intros ->. split; [|done]. f_equal. by eapply ran_keeps.
Qed.

Lemma first_run_takes_all_but_undefined_witness :
  Selector.call_run (Example.returning 200) Example.ownProps Selector.makeSelectorStateful
    = Normal (updated Selector.makeSelectorStateful (VObj 200))
  ∧ Selector.call_run
      {| Selector.getState := Normal VNull;
         Selector.sourceSelector := fun _ _ => Normal VUndefined |}
      Example.ownProps Selector.makeSelectorStateful
    = Normal Selector.makeSelectorStateful.
Proof.
  split.
  - apply (first_run_takes_all_but_undefined (Example.returning 200) Example.ownProps
             (VObj 200)); [reflexivity|discriminate].
  - apply (first_run_takes_all_but_undefined _ Example.ownProps VUndefined);
      reflexivity.
Defined.

(** X9. Once rendered, a Controller asks for no re-render when new props
    arrive and the derivation returns the props it already holds with no
    error stored: [shouldComponentUpdate] then answers [false] and the held
    reference is kept. It answers [true] when the derivation returns
    different props. *)
Theorem rerender_only_on_change (e : Selector.env) (nextProps : object)
    (st : state) (v : value) :
  Selector.run (selector (this st)) = Selector.runComponentSelector →
  truthy (Selector.error (selector (this st))) = false →
  Selector.derive e (getRestProps nextProps) = Normal v →
  let st' := after (ComponentWillReceiveProps e nextProps) (after Render st) in
  (strict_equal v (Selector.props (selector (this st))) = true →
     fst (shouldComponentUpdate st') = Normal (VBool false)
     ∧ Selector.props (selector (this st')) = Selector.props (selector (this st)))
  ∧ (strict_equal v (Selector.props (selector (this st))) = false →
       fst (shouldComponentUpdate st') = Normal (VBool true)
       ∧ Selector.props (selector (this st')) = v).
Proof.
  intros Hrun Herr Hd st'.
  assert (Hst' : selector (this st')
                 = ran e (getRestProps nextProps)
                     (set_shouldComponentUpdate (VBool false) (selector (this st)))).
  { subst st'. unfold after, perform, forget, bind, assign, componentWillReceiveProps.
    rewrite run_selector_eq. simpl. by rewrite render_state. }
  change (fst (shouldComponentUpdate st'))
    with (Normal (A:=value) (Selector.shouldComponentUpdate (selector (this st')))).
  rewrite Hst'. split; intros Heq.
  - by rewrite (ran_keeps e _ _ v).
  - rewrite (ran_takes e _ _ v); [done|done|done|by left].
Qed.

Lemma rerender_only_on_change_witness :
  fst (shouldComponentUpdate
         (after (ComponentWillReceiveProps (Example.returning 200) Example.ownProps)
            (after Render Example.mounted)))
    = Normal (VBool false)
  ∧ fst (shouldComponentUpdate
           (after (ComponentWillReceiveProps (Example.returning 201) Example.ownProps)
              (after Render Example.mounted)))
    = Normal (VBool true).
Proof.
  split.
  - apply (rerender_only_on_change (Example.returning 200) Example.ownProps
             Example.mounted (VObj 200)); reflexivity.
  - apply (rerender_only_on_change (Example.returning 201) Example.ownProps
             Example.mounted (VObj 201)); reflexivity.
Defined.

(** X10. A raised [shouldComponentUpdate] is lowered by [render] and by
    [componentWillUnmount] only: no other call, and no selector run, takes
    a pending update back. *)
Theorem flag_lowered_only_by_render_or_unmount (c : call) (st : state) :
  truthy (Selector.shouldComponentUpdate (selector (this st))) = true →
  c ≠ Render → c ≠ ComponentWillUnmount →
  truthy (Selector.shouldComponentUpdate (selector (this (after c st)))) = true.
Proof.
  intros Hup Hr Hu. pose proof (after_selector_by_call c st) as H.
  destruct c; unfold selector_after in H; rewrite ?elem_of_cons, elem_of_nil in H;
    try done;
    repeat match goal with
           | H : _ ∨ _ |- _ => destruct H as [H|H]
           end; try done;
    rewrite H; try done; by apply ran_keeps_flag.
Qed.

Lemma flag_lowered_only_by_render_or_unmount_witness :
  truthy (Selector.shouldComponentUpdate
            (selector (this (after (OnStateChange (Example.throwing (VError "boom")))
                               Example.mounted))))
  = true.
Proof.
  apply (flag_lowered_only_by_render_or_unmount
           (OnStateChange (Example.throwing (VError "boom"))) Example.mounted);
    [reflexivity|discriminate|discriminate].
Defined.



(** ** After detach, and what calls leave alone *)

Lemma unmount_detaches (st : state) :
  subscription_ok st → detached (snd (componentWillUnmount st)).
Proof. intros Hok. by rewrite (componentWillUnmount_eq st Hok). Qed.

(** X12. Detach is final. Whatever is called on a Controller that
    [componentWillUnmount] has left - a lifecycle method, a pending commit,
    a late store notification, a second unmount - the Controller stays
    frozen, no node is touched and no effect is produced. *)
Theorem detached_is_terminal :
  (∀ st : state, subscription_ok st → detached (snd (componentWillUnmount st)))
  ∧ (∀ (c : call) (st : state),
       detached st →
       detached (after c st)
       ∧ log (after c st) = log st
       ∧ subs (after c st) = subs st)
  ∧ (∀ (cs : list call) (st : state),
       detached st →
       detached (after_all cs st)
       ∧ log (after_all cs st) = log st
       ∧ subs (after_all cs st) = subs st).
Proof.
  assert (Hone : ∀ (c : call) (st : state),
                   detached st →
                   detached (after c st)
                   ∧ log (after c st) = log st ∧ subs (after c st) = subs st).
  { intros c st ((Hrun & Hflag & Hn) & Hs). unfold detached, inert.
    destruct st as [[? ? ? ? ? ? [? ? ? ?] ? ? ? ?] ? ?]; simpl in *; subst.
    destruct c; unfold_calls; unfold ran, Selector.call_run in *; simpl;
      crunch; rewrite ?app_nil_r; done. }
  split; [exact unmount_detaches|]. split; [exact Hone|].
  intros cs. induction cs as [|c cs IH]; intros st Hd; simpl; [done|].
  destruct (Hone c st Hd) as (Hd' & Hl & Hn).
  destruct (IH (after c st) Hd') as (? & -> & ->). done.
Qed.

Lemma detached_is_terminal_witness :
  log (after_all [ComponentWillReceiveProps (Example.returning 201) ∅; Render; Commit;
                  OnStateChange (Example.returning 202); ComponentWillUnmount;
                  ComponentDidMount (Example.returning 203)]
         (snd (componentWillUnmount Example.mounted)))
  = log (snd (componentWillUnmount Example.mounted)).
Proof.
  destruct detached_is_terminal as (Hunmount & _ & Hall).
  apply Hall. apply Hunmount. vm_compute. eexists. reflexivity.
Defined.



(** X14. Each kind of effect has its own source: the upstream subscription
    and [forceUpdate] come from [componentDidMount] alone, the upstream
    unsubscription from [componentWillUnmount] alone, [setState] from
    [onStateChange] alone, and a call of [notifyNestedSubs] from
    [onStateChange] or a commit. Every other call - [render], a props
    change, the context and instance accessors - has no effect outside
    the instance. *)
Theorem effects_have_one_source (c : call) (st : state) :
  ∃ es, log (after c st) = log st ++ es ∧ forallb (may_emit c) es = true.
Proof.
  destruct c; unfold_calls; simpl; crunch; extend_log; reflexivity.
Qed.

(** ** From construction to attach *)

Lemma first_run_holds_result e p v :
  Selector.derive e p = Normal v →
  let s := ran e p Selector.makeSelectorStateful in
  Selector.run s = Selector.runComponentSelector
  ∧ Selector.props s = v
  ∧ truthy (Selector.error s) = false.
Proof.
  intros Hd s. subst s.
  destruct (strict_equal v VUndefined) eqn:E.
  - apply strict_equal_eq in E. subst v.
    by rewrite (ran_keeps e p _ VUndefined).
  - rewrite (ran_takes e p _ v); [done|done|done|by left].
Qed.

Lemma after_render (st : state) : after Render st = flag_reset st.
Proof. unfold after, perform, forget. simpl. apply render_state. Qed.

(** X15. Construction, first render and [componentDidMount] together: when
    the derivation at attach returns the props derived at construction, the
    only effect of the whole sequence is the upstream subscription; when it
    returns other props (the store changed in between), the subscription is
    followed by one [forceUpdate]. *)
Theorem mount_forces_update_only_on_change K e e' c p ctx nodes stages v v' :
  truthy (store_of p ctx) = true →
  resolve K c p ctx = Normal stages →
  truthy (mapStateToProps (cls_opts c)) = true →
  Selector.derive e (getRestProps p) = Normal v →
  Selector.derive e' (getRestProps p) = Normal v' →
  log (after (ComponentDidMount e') (after Render (snd (new K e c p ctx nodes))))
  = EUpstreamSubscribe (length nodes) (Subscription.upstream (own_node p ctx))
    :: (if strict_equal v' v then [] else [EForceUpdate]).
Proof.
  intros Hstore Hr Hh Hd Hd'.
  rewrite (new_resolved K e c p ctx nodes stages Hstore Hr).
  unfold constructed. rewrite Hh. rewrite after_render.
  destruct (first_run_holds_result e (getRestProps p) v Hd) as (Hrun & Hprops & Herr).
  unfold after, perform, forget.
  rewrite (componentDidMount_eq e' _ (length nodes) (own_node p ctx)).
  - cbn -[ran Subscription.upstream].
    set (s := set_shouldComponentUpdate (VBool false)
                (ran e (getRestProps p) Selector.makeSelectorStateful)).
    destruct (strict_equal v' v) eqn:E.
    + rewrite (ran_keeps e' (getRestProps p) s v'); simpl; try done.
      by rewrite Hprops.
    + rewrite (ran_takes e' (getRestProps p) s v'); simpl; try done.
      left. by rewrite Hprops.
  - unfold shouldHandleStateChanges, getOptions. simpl. done.
  - done.
  - simpl. rewrite lookup_app_r; [|done]. by rewrite Nat.sub_diag.
Qed.

Lemma mount_forces_update_only_on_change_witness :
  log (after (ComponentDidMount (Example.returning 200))
         (after Render
            (snd (new Example.K (Example.returning 200) Example.Connected
                    Example.ownProps Example.ambient []))))
    = [EUpstreamSubscribe 0 (VObj 7)]
  ∧ log (after (ComponentDidMount (Example.returning 201))
           (after Render
              (snd (new Example.K (Example.returning 200) Example.Connected
                      Example.ownProps Example.ambient []))))
    = [EUpstreamSubscribe 0 (VObj 7); EForceUpdate].
Proof.
  split.
  - apply (mount_forces_update_only_on_change Example.K (Example.returning 200)
             (Example.returning 200) Example.Connected Example.ownProps
             Example.ambient [] (Example.mapState, VUndefined, VUndefined)
             (VObj 200) (VObj 200)); reflexivity.
  - apply (mount_forces_update_only_on_change Example.K (Example.returning 200)
             (Example.returning 201) Example.Connected Example.ownProps
             Example.ambient [] (Example.mapState, VUndefined, VUndefined)
             (VObj 200) (VObj 201)); reflexivity.
Defined.

(** X16. The store given as a prop wins over the store of the context, and
    [propsMode] records which one was taken: a truthy [store] prop is the
    Controller's store and switches props mode on; without one, or with a
    falsy one, the Controller takes the context's store and props mode is
    off. *)
Theorem store_prop_wins_over_context K e c p ctx nodes stages :
  truthy (store_of p ctx) = true →
  resolve K c p ctx = Normal stages →
  let i := this (snd (new K e c p ctx nodes)) in
  (truthy (get p storeKey) = true →
     store i = get p storeKey ∧ propsMode i = true)
  ∧ (truthy (get p storeKey) = false →
       store i = get ctx storeKey ∧ propsMode i = false).
Proof.
  intros Hstore Hr i. subst i.
  rewrite (new_resolved K e c p ctx nodes stages Hstore Hr).
  unfold constructed.
  destruct (truthy (mapStateToProps (cls_opts c))); simpl;
    split; intros H; rewrite H; (split; [|done]);
    unfold store_of, or_else; by rewrite H.
Qed.

Lemma store_prop_wins_over_context_witness :
  store (this Example.explicit) = VObj 8
  ∧ propsMode (this Example.explicit) = true
  ∧ store (this Example.nested) = VObj 7
  ∧ propsMode (this Example.nested) = false.
Proof.
  destruct (store_prop_wins_over_context Example.K (Example.returning 200)
              Example.Connected {[ storeKey := VObj 8 ]}
              (<[subscriptionKey := VObj 0]> Example.ambient)
              [Subscription.Node (VObj 7) VUndefined true]
              (Example.mapState, VUndefined, VUndefined))
    as ((H1 & H2) & _); [reflexivity..|].
  destruct (store_prop_wins_over_context Example.K (Example.returning 200)
              Example.Connected Example.ownProps
              (<[subscriptionKey := VObj 0]> Example.ambient)
              [Subscription.Node (VObj 7) VUndefined true]
              (Example.mapState, VUndefined, VUndefined))
    as (_ & (H3 & H4)); [reflexivity..|].
  repeat split; assumption.
Defined.

(** ** Names given by [connect] *)



(** ** Pending notification and failed construction *)

Lemma hook_stays (c : call) (st : state) (h : hook) :
  componentDidUpdate (this st) = Some h → c ≠ Commit →
  componentDidUpdate (this (after c st)) = Some h.
Proof.
  intros Hh Hc. destruct h.
  destruct c; try done; unfold_calls; simpl; crunch; done.
Qed.

(** X18. A deferred notification is not lost: once [onStateChange] has
    installed the commit hook on a mounted Controller, the hook stays
    installed through every call short of a commit or an unmount - a render
    that throws, a props change, further store notifications - and the
    first commit then calls [notifyNestedSubs] on the Controller's node and
    removes the hook. *)
Theorem deferred_notification_survives (cs : list call) (st : state) (r : loc) :
  componentDidUpdate (this st) = Some notifyNestedSubsOnComponentDidUpdate_fn →
  notifyNestedSubs (this st) = NotifyBound r →
  Forall (fun c => c ≠ Commit ∧ c ≠ ComponentWillUnmount) cs →
  let st' := after_all cs st in
  componentDidUpdate (this st') = Some notifyNestedSubsOnComponentDidUpdate_fn
  ∧ log (after Commit st') = log st' ++ [ENotifyNestedSubs r]
  ∧ componentDidUpdate (this (after Commit st')) = None.
Proof.
  intros Hh Hn Hcs st'.
  assert (H : componentDidUpdate (this st')
              = Some notifyNestedSubsOnComponentDidUpdate_fn
              ∧ notifyNestedSubs (this st') = NotifyBound r).
  { subst st'. revert st Hh Hn.
    induction Hcs as [|c cs [Hc Hu] _ IH]; intros st Hh Hn; simpl; [done|].
    apply IH; [by apply hook_stays|].
    destruct c; try done; unfold_calls; simpl; crunch; done. }
  destruct H as [Hh' Hn'].
  destruct (commit_fires_once st' r Hh' Hn') as (? & ? & _). done.
Qed.

Lemma deferred_notification_survives_witness :
  let st := after (OnStateChange (Example.throwing (VError "boom"))) Example.rendered in
  log (after Commit
         (after_all [Render; ComponentWillReceiveProps (Example.returning 201) ∅;
                     OnStateChange (Example.returning 202); Render] st))
  = log (after_all [Render; ComponentWillReceiveProps (Example.returning 201) ∅;
                    OnStateChange (Example.returning 202); Render] st)
    ++ [ENotifyNestedSubs 0].
Proof.
  intros st.
  apply (deferred_notification_survives
           [Render; ComponentWillReceiveProps (Example.returning 201) ∅;
            OnStateChange (Example.returning 202); Render] st 0);
    [reflexivity|reflexivity|].
  repeat constructor; discriminate.
Defined.

(** X19. A construction that throws has done nothing else: whether the
    store is missing or a stage cannot be resolved, no Subscription node has
    been created and no effect produced; and it throws exactly in these two
    cases. *)
Theorem failed_construction_leaves_nothing K e c p ctx nodes :
  (∀ x, fst (new K e c p ctx nodes) = Throw x →
     subs (snd (new K e c p ctx nodes)) = nodes
     ∧ log (snd (new K e c p ctx nodes)) = []
     ∧ (truthy (store_of p ctx) = false ∨ resolve K c p ctx = Throw x))
  ∧ (truthy (store_of p ctx) = true →
     (∃ stages, resolve K c p ctx = Normal stages) →
     fst (new K e c p ctx nodes) = Normal tt).
Proof.
  split.
  - intros x.
    destruct (truthy (store_of p ctx)) eqn:Hstore.
    + destruct (resolve K c p ctx) as [stages|y] eqn:Hr.
      * by rewrite (new_resolved K e c p ctx nodes stages Hstore Hr).
      * intros Hx.
        rewrite (new_unresolved K e c p ctx nodes y Hstore Hr) in Hx.
        injection Hx as ->.
        split; [|split; [|by right]];
          unfold new, constructor, initialize, initSelector; unfold_M; simpl;
          fold (store_of p ctx); rewrite Hstore; simpl;
          unfold resolve, initMapStateToProps, initMapDispatchToProps,
            initMergeProps, factoryOptions_of in Hr;
          unfold shouldHandleStateChanges, getOptions; simpl; by rewrite Hr.
    + intros _.
      split; [|split; [|by left]];
        unfold new, constructor, initialize; unfold_M; simpl;
        fold (store_of p ctx); by rewrite Hstore.
  - intros Hstore [stages Hr].
    by rewrite (new_resolved K e c p ctx nodes stages Hstore Hr).
Qed.

Lemma failed_construction_leaves_nothing_witness :
  subs (snd (new Example.K (Example.returning 200) Example.Misconfigured
               Example.ownProps Example.ambient []))
  = []
  ∧ fst (new Example.K (Example.returning 200) Example.Connected
           Example.ownProps Example.ambient [])
    = Normal tt.
Proof.
  destruct (failed_construction_leaves_nothing Example.K (Example.returning 200)
              Example.Misconfigured Example.ownProps Example.ambient [])
    as (Hfail & _).
  destruct (failed_construction_leaves_nothing Example.K (Example.returning 200)
              Example.Connected Example.ownProps Example.ambient [])
    as (_ & Hok).
  split.
  - eapply Hfail. reflexivity.
  - apply Hok; [reflexivity|]. eexists. reflexivity.
Defined.
